(** * Medical chatbot RAG system: content normalizer, response assembler,
      retrieval adapter and session history store.

    A shallow embedding of [src/chatbot_engine.py] and [src/app.py].
    Python values are an inductive type, Python [str] is a list of Unicode
    code points, raised exceptions are an explicit [Raise] outcome, and the
    process-wide [conversations] dict is a [gmap]. *)

From stdpp Require Import base option list gmap strings.
From Stdlib Require Import NArith ZArith Lia.
From Stdlib Require Ascii String.

Local Open Scope N_scope.

(** ** Python strings *)

Module PyStr.

(** A Python [str] is a sequence of code points; [len] is [length]. *)
Definition str := list N.

(** An ASCII literal of the source, as a [str]. *)
Definition lit (s : string) : str :=
  Ascii.N_of_ascii <$> String.list_ascii_of_string s.

(** [str.isspace] on one code point: the code points CPython treats as
    whitespace (bidirectional class WS, B or S, or category Zs). *)
Definition isspace (c : N) : bool :=
  ((9 <=? c) && (c <=? 13)) || ((28 <=? c) && (c <=? 32))
  || (c =? 133) || (c =? 160) || (c =? 5760)
  || ((8192 <=? c) && (c <=? 8202))
  || (c =? 8232) || (c =? 8233) || (c =? 8239) || (c =? 8287) || (c =? 12288).

Fixpoint lstrip (s : str) : str :=
  match s with
  | [] => []
  | c :: s' => if isspace c then lstrip s' else s
  end.

Definition rstrip (s : str) : str := reverse (lstrip (reverse s)).

(** [s.strip()] *)
Definition strip (s : str) : str := rstrip (lstrip s).

(** [sep.join(parts)] *)
Fixpoint join (sep : str) (parts : list str) : str :=
  match parts with
  | [] => []
  | [p] => p
  | p :: rest => p ++ sep ++ join sep rest
  end.

(** [s.lower()] on the ASCII letters.  The only non-ASCII code points whose
    lower-case form contains an ASCII letter are U+212A (to [k]) and U+0130
    (to [i] followed by U+0307); neither can complete the needle
    [aimessage], the one use [lower] is put to below. *)
Definition lower_char (c : N) : N :=
  if (65 <=? c) && (c <=? 90) then c + 32 else c.

Definition lower (s : str) : str := lower_char <$> s.

Fixpoint startswith (s p : str) : bool :=
  match p, s with
  | [], _ => true
  | _ :: _, [] => false
  | a :: p', b :: s' => bool_decide (a = b) && startswith s' p'
  end.

(** [needle in s] *)
Fixpoint contains (needle s : str) : bool :=
  startswith s needle ||
  match s with
  | [] => false
  | _ :: s' => contains needle s'
  end.

(** The separator ["\n\n"]. *)
Definition blank_line : str := [10; 10].

(** Truthiness of a [str]: non-empty. *)
Definition truthy (s : str) : bool :=
  match s with [] => false | _ :: _ => true end.

(** A string with a first and a last character, neither of them
    whitespace: what [strip] leaves when it leaves anything. *)
Definition stripped (s : str) : Prop :=
  s ≠ [] ∧ (∀ c, head s = Some c → isspace c = false)
         ∧ (∀ c, last s = Some c → isspace c = false).

End PyStr.
Export PyStr.

(** ** Python values and exceptions *)

#[warning="-register-all"]
Inductive pyval :=
| PNone
| PBool (b : bool)
| PInt (z : Z)
| PStr (s : str)
| PList (xs : list pyval)
| PDict (kvs : list (str * pyval)).

(** The exceptions derived from [Exception], those an [except Exception]
    clause catches; [OtherError cls msg] is one of class [cls].  What is
    raised outside that hierarchy ([KeyboardInterrupt], [SystemExit]) is a
    [BaseException_] signal of [Propagating] below. *)
Inductive exn :=
| TimeoutError (msg : str)
| AttributeError (msg : str)
| KeyError (msg : str)
| OtherError (cls : str) (msg : str).

(** [str(e)] *)
Definition exn_str (e : exn) : str :=
  match e with
  | TimeoutError m | AttributeError m | KeyError m | OtherError _ m => m
  end.

Inductive result (A : Type) :=
| Ok (a : A)
| Raise (e : exn).
Arguments Ok {A} a.
Arguments Raise {A} e.

Definition bind {A B} (r : result A) (k : A → result B) : result B :=
  match r with
  | Ok a => k a
  | Raise e => Raise e
  end.

Notation "x ←! r ; k" := (bind r (λ x, k))
  (at level 20, r at level 100, k at level 200, right associativity,
   format "x  ←!  r ;  '/' k").

(** [type(v).__name__] *)
Definition type_name (v : pyval) : str :=
  match v with
  | PNone => lit "NoneType"
  | PBool _ => lit "bool"
  | PInt _ => lit "int"
  | PStr _ => lit "str"
  | PList _ => lit "list"
  | PDict _ => lit "dict"
  end.

(** What [v.strip()] raises on a value that is not a [str]. *)
Definition no_attribute (v : pyval) (attr : string) : exn :=
  AttributeError
    (lit "'" ++ type_name v ++ lit "' object has no attribute '" ++ lit attr ++ lit "'").

(** Truthiness of a value, as [if v:] and [a or b] test it. *)
Definition py_truthy (v : pyval) : bool :=
  match v with
  | PNone => false
  | PBool b => b
  | PInt z => negb (z =? 0)%Z
  | PStr s => truthy s
  | PList xs => match xs with [] => false | _ => true end
  | PDict kvs => match kvs with [] => false | _ => true end
  end.

(** [v == s] for a [str] literal [s]: only an equal [str] compares equal. *)
Definition eq_str (v : pyval) (s : str) : bool :=
  match v with
  | PStr t => bool_decide (t = s)
  | _ => false
  end.

(** Truthiness of an optional text ([None] or a [str]). *)
Definition text_truthy (t : option str) : bool :=
  match t with
  | None => false
  | Some s => truthy s
  end.

(** ** Dictionaries: the items of a [dict], in insertion order *)

Section Dict.
Context {V : Type}.

(** [d[key]] where present *)
Fixpoint dict_get (kvs : list (str * V)) (key : str) : option V :=
  match kvs with
  | [] => None
  | (k, v) :: rest => if decide (k = key) then Some v else dict_get rest key
  end.

(** [key in d] *)
Definition dict_has (kvs : list (str * V)) (key : str) : bool :=
  match dict_get kvs key with Some _ => true | None => false end.

(** [f(d[key])] where [key] is present: the lookup and the call in one
    pass over the items. *)
Definition dict_probe {A} (f : V → A) : list (str * V) → str → option A :=
  fix go kvs key :=
    match kvs with
    | [] => None
    | (k, v) :: rest => if decide (k = key) then Some (f v) else go rest key
    end.
End Dict.

(** ** Content Normalizer: [MedicalChatbot._extract_text_content] *)

(** [text if text else None] *)
Definition text_or_none (text : str) : option str :=
  if truthy text then Some text else None.

(** The [for block in message_content] loop, over the recursive call [f]. *)
Definition extract_blocks (f : pyval → result (option str))
  : list pyval → list str → result (list str) :=
  fix go blocks parts :=
    match blocks with
    | [] => Ok parts
    | block :: rest =>
        block_text ←! f block;
        go rest (if text_truthy block_text
                 then parts ++ [default [] block_text] else parts)
    end.

(** The [for key in ("content", "text", "value")] loop: the first key
    present decides. *)
Definition probe_keys {A} (probe : str → option A) (none : A) : list str → A :=
  fix go keys :=
    match keys with
    | [] => none
    | key :: rest => match probe key with Some r => r | None => go rest end
    end.

Definition fallback_keys : list str := [lit "content"; lit "text"; lit "value"].

Fixpoint _extract_text_content (message_content : pyval) : result (option str) :=
  match message_content with
  | PNone => Ok None
  | PStr s => Ok (text_or_none (strip s))
  | PDict kvs =>
      if eq_str (default PNone (dict_get kvs (lit "type"))) (lit "text") then
        match default (PStr []) (dict_get kvs (lit "text")) with
        | PStr s => Ok (text_or_none (strip s))
        | v => Raise (no_attribute v "strip")
        end
      else
        probe_keys (dict_probe _extract_text_content kvs) (Ok None) fallback_keys
  | PList blocks =>
      parts ←! extract_blocks _extract_text_content blocks [];
      if match parts with [] => false | _ => true end
      then Ok (Some (strip (join blank_line parts)))
      else Ok None
  | PBool _ | PInt _ => Ok None
  end.

(** ** Response Assembler: [MedicalChatbot.get_response] *)

(** What the assembler observes of a message object: its class name, its
    [type] and [content] attributes where it has them, and its items where
    it is a [dict].  A LangChain [AIMessage] has both attributes and is no
    [dict]; a plain [dict] has class name [dict] and neither attribute. *)
Record message := {
  cls_name : str;
  attr_type : option pyval;
  attr_content : option pyval;
  dict_items : option (list (str * pyval))
}.

(** An event is a [dict]; [ev_messages] is its [messages] entry. *)
Record event := { ev_messages : option (list message) }.

(** What [agent.stream(...)] yields: the events, then a normal end or a
    raised exception, here one derived from [Exception]; [Propagating]
    below adds the others. *)
Record stream := { st_events : list event; st_raises : option exn }.

Definition agent := str → stream.

Definition get_or_none (kvs : list (str * pyval)) (key : string) : pyval :=
  default PNone (dict_get kvs (lit key)).

Definition message_type (last_message : message) : pyval :=
  match attr_type last_message with
  | Some t => t
  | None =>
      match dict_items last_message with
      | Some kvs =>
          if py_truthy (get_or_none kvs "type")
          then get_or_none kvs "type" else get_or_none kvs "role"
      | None => PNone
      end
  end.

Definition raw_content (last_message : message) : pyval :=
  match attr_content last_message with
  | Some c => c
  | None =>
      match dict_items last_message with
      | Some kvs => get_or_none kvs "content"
      | None => PNone
      end
  end.

(** [message_type in ('ai', 'assistant')] *)
Definition type_is_ai (last_message : message) : bool :=
  eq_str (message_type last_message) (lit "ai")
  || eq_str (message_type last_message) (lit "assistant").

(** ['aimessage' in last_message.__class__.__name__.lower()] *)
Definition cls_is_ai (last_message : message) : bool :=
  contains (lit "aimessage") (lower (cls_name last_message)).

Definition is_ai_message (last_message : message) : bool :=
  if type_is_ai last_message then true
  else if cls_is_ai last_message then true
  else false.

(** One iteration of the [for event in self.agent.stream(...)] loop. *)
Definition on_event (final_response : option str) (ev : event)
  : result (option str) :=
  let messages := default [] (ev_messages ev) in
  match last messages with
  | None => Ok final_response
  | Some last_message =>
      text_content ←! _extract_text_content (raw_content last_message);
      if is_ai_message last_message && text_truthy text_content
      then Ok text_content
      else Ok final_response
  end.

Fixpoint consume (evs : list event) (raises : option exn)
    (final_response : option str) : result (option str) :=
  match evs with
  | [] =>
      match raises with
      | Some e => Raise e
      | None => Ok final_response
      end
  | ev :: rest =>
      final_response ←! on_event final_response ev;
      consume rest raises final_response
  end.

Definition msg_invalid : str := lit "Please provide a valid question.".
Definition msg_fallback : str :=
  lit "I apologize, but I couldn't generate a response. Please try rephrasing your question or ask something else.".
Definition msg_timeout : str :=
  lit "The request timed out. Please try again with a shorter question.".
Definition msg_error : str :=
  lit "I apologize, but I encountered an error processing your request. Please try again or rephrase your question.".

(** The body of the [try] of [get_response]. *)
Definition get_response_try (a : agent) (user_message : str) : result str :=
  if negb (truthy user_message) || negb (truthy (strip user_message))
  then Ok msg_invalid
  else
    let s := a user_message in
    final_response ←! consume (st_events s) (st_raises s) None;
    if text_truthy final_response
    then Ok (default [] final_response)
    else Ok msg_fallback.

Definition get_response (a : agent) (user_message : str) : str :=
  match get_response_try a user_message with
  | Ok response => response
  | Raise (TimeoutError _) => msg_timeout
  | Raise _ => msg_error
  end.

(** ** [get_response] and the exceptions its [except] clauses do not catch *)

Module Propagating.

(** What a [raise] carries: an exception derived from [Exception], or one
    that is not. *)
Inductive signal :=
| Exception_ (e : exn)
| BaseException_ (cls msg : str).

Inductive outcome (A : Type) :=
| Returns (a : A)
| Raises (s : signal).
Arguments Returns {A} a.
Arguments Raises {A} s.

(** The events [agent.stream(...)] yields, then a normal end or a raise of
    either kind. *)
Record stream := { st_events : list event; st_raises : option signal }.

Definition agent := str → stream.

(** The [for event in self.agent.stream(...)] loop; what the loop body
    raises is derived from [Exception]. *)
Fixpoint consume (evs : list event) (raises : option signal)
    (final_response : option str) : outcome (option str) :=
  match evs with
  | [] =>
      match raises with
      | Some s => Raises s
      | None => Returns final_response
      end
  | ev :: rest =>
      match on_event final_response ev with
      | Raise e => Raises (Exception_ e)
      | Ok final_response => consume rest raises final_response
      end
  end.

(** The body of the [try]. *)
Definition get_response_try (a : agent) (user_message : str) : outcome str :=
  if negb (truthy user_message) || negb (truthy (strip user_message))
  then Returns msg_invalid
  else
    let s := a user_message in
    match consume (st_events s) (st_raises s) None with
    | Raises sg => Raises sg
    | Returns final_response =>
        if text_truthy final_response
        then Returns (default [] final_response)
        else Returns msg_fallback
    end.

(** [except TimeoutError], then [except Exception]; anything else leaves
    the function as it came. *)
Definition get_response (a : agent) (user_message : str) : outcome str :=
  match get_response_try a user_message with
  | Returns response => Returns response
  | Raises (Exception_ (TimeoutError _)) => Returns msg_timeout
  | Raises (Exception_ _) => Returns msg_error
  | Raises (BaseException_ cls msg) => Raises (BaseException_ cls msg)
  end.

End Propagating.

(** ** Retrieval Tool Adapter *)

(** A LangChain [Document]. *)
Record document := { metadata : list (str * pyval); page_content : str }.

(** [vectorstore.similarity_search(query, k=k)]: the passages, or a raised
    failure of the hosted index. *)
Definition vectorstore := str → Z → result (list document).

(** [doc.metadata.get('source', 'Unknown')] *)
Definition doc_source (doc : document) : pyval :=
  default (PStr (lit "Unknown")) (dict_get (metadata doc) (lit "source")).

Definition msg_unavailable : str := lit "Knowledge base is not available.".
Definition msg_no_results : str :=
  lit "No relevant medical information found in the knowledge base.".
Definition error_prefix : str := lit "Error accessing knowledge base: ".

Section Retrieval.
(** How an f-string renders a value that is not a [str] (the built-in
    [format]); a [str] is rendered as itself. *)
Variable py_format : pyval → str.

Definition fstring_value (v : pyval) : str :=
  match v with
  | PStr s => s
  | _ => py_format v
  end.

(** [f"Source: {...}\nContent: {doc.page_content}"] *)
Definition format_doc (doc : document) : str :=
  lit "Source: " ++ fstring_value (doc_source doc) ++ [10]
  ++ lit "Content: " ++ page_content doc.

(** The tool closes over [vectorstore], which is [None] when no handle is
    available. *)
Definition retrieve_medical_context (vs : option vectorstore) (query : str)
  : str * list document :=
  match vs with
  | None => (msg_unavailable, [])
  | Some search =>
      match search query 3%Z with
      | Raise e => (error_prefix ++ exn_str e, [])
      | Ok [] => (msg_no_results, [])
      | Ok retrieved_docs =>
          (join blank_line (format_doc <$> retrieved_docs), retrieved_docs)
      end
  end.
End Retrieval.

(** One entry of the list [get_relevant_sources] returns: a [dict] with
    exactly the keys [source] and [content]. *)
Record source_entry := { source : pyval; content : str }.

(** [c[:200] + "..." if len(c) > 200 else c] *)
Definition preview (c : str) : str :=
  if (200 <? length c)%nat then take 200 c ++ lit "..." else c.

Definition source_of_doc (doc : document) : source_entry :=
  {| source := doc_source doc; content := preview (page_content doc) |}.

Definition get_relevant_sources (search : vectorstore) (query : str) (k : Z)
  : list source_entry :=
  match search query k with
  | Ok docs => source_of_doc <$> docs
  | Raise _ => []
  end.

(** ** Session & History Store and the HTTP handlers of [app.py] *)

Record turn := { turn_role : str; turn_message : str; turn_timestamp : str }.

(** The process-wide [conversations] dict. *)
Abbreviation conversations := (gmap (list N) (list turn)).

(** The engine the handlers share; [None] where its construction failed. *)
Record chatbot := { cb_agent : agent; cb_vectorstore : vectorstore }.

(** The state a request sees and leaves: [conversations], and the
    [session_id] entry of the client's signed session. *)
Record app_state := { convs : conversations; session_id : option str }.

Inductive response :=
| JsonError (status : nat) (error : str)
| JsonChat (bot_response : str) (timestamp : str)
| JsonHistory (history : list turn)
| JsonStatus (status : str) (msg : str)
| JsonSources (sources : list source_entry).

(** [if session_id not in conversations: conversations[session_id] = []] *)
Definition ensure (sid : str) (c : conversations) : conversations :=
  match c !! sid with
  | Some _ => c
  | None => <[sid := []]> c
  end.

(** [conversations[session_id].append(t)] *)
Definition append (sid : str) (t : turn) (c : conversations)
  : result conversations :=
  match c !! sid with
  | Some turns => Ok (<[sid := turns ++ [t]]> c)
  | None => Raise (KeyError sid)
  end.

(** The store side of [clear_history], for a session id that is set. *)
Definition clear (sid : str) (c : conversations) : conversations :=
  if truthy sid && bool_decide (is_Some (c !! sid))
  then <[sid := []]> c else c.

(** The store side of [get_history], for a session id that is set. *)
Definition get (sid : str) (c : conversations) : list turn :=
  if negb (truthy sid) || negb (bool_decide (is_Some (c !! sid)))
  then [] else default [] (c !! sid).

(** [data.get(field, '').strip()] on the parsed JSON body. *)
Definition body_field (data : pyval) (field : string) : result str :=
  match data with
  | PDict kvs =>
      match default (PStr []) (dict_get kvs (lit field)) with
      | PStr s => Ok (strip s)
      | v => Raise (no_attribute v "strip")
      end
  | v => Raise (no_attribute v "get")
  end.

(** [index]: [fresh] is [str(uuid.uuid4())]. *)
Definition index (fresh : str) (st : app_state) : app_state :=
  match session_id st with
  | Some _ => st
  | None => {| convs := <[fresh := []]> (convs st); session_id := Some fresh |}
  end.

Definition err_500_chat : response :=
  JsonError 500 (lit "An error occurred while processing your request. Please try again.").

(** [chat]: [fresh] is [str(uuid.uuid4())], the three [t_] arguments are the
    successive readings of [datetime.now().isoformat()]. *)
Definition chat (cb : option chatbot) (data : pyval)
    (fresh t_user t_bot t_resp : str) (st : app_state) : response * app_state :=
  match cb with
  | None =>
      (JsonError 503
         (lit "Chatbot service is currently unavailable. Please try again later."), st)
  | Some cb =>
      match body_field data "message" with
      | Raise _ => (err_500_chat, st)
      | Ok user_message =>
          if negb (truthy user_message) then
            (JsonError 400 (lit "Message cannot be empty"), st)
          else if (1000 <? length user_message)%nat then
            (JsonError 400
               (lit "Message is too long. Please keep it under 1000 characters."), st)
          else
            let sid := default fresh (session_id st) in
            let c0 := ensure sid (convs st) in
            match append sid {| turn_role := lit "user";
                                turn_message := user_message;
                                turn_timestamp := t_user |} c0 with
            | Raise _ => (err_500_chat, {| convs := c0; session_id := Some sid |})
            | Ok c1 =>
                let bot_response := get_response (cb_agent cb) user_message in
                match append sid {| turn_role := lit "assistant";
                                    turn_message := bot_response;
                                    turn_timestamp := t_bot |} c1 with
                | Raise _ =>
                    (err_500_chat, {| convs := c1; session_id := Some sid |})
                | Ok c2 =>
                    (JsonChat bot_response t_resp,
                     {| convs := c2; session_id := Some sid |})
                end
            end
      end
  end.

Definition get_history (st : app_state) : response :=
  match session_id st with
  | None => JsonHistory []
  | Some sid => JsonHistory (get sid (convs st))
  end.

Definition clear_history (st : app_state) : response * app_state :=
  (JsonStatus (lit "success") (lit "Conversation history cleared"),
   match session_id st with
   | None => st
   | Some sid => {| convs := clear sid (convs st); session_id := Some sid |}
   end).

Definition get_sources (cb : option chatbot) (data : pyval) : response :=
  match cb with
  | None => JsonError 503 (lit "Chatbot service is currently unavailable")
  | Some cb =>
      match body_field data "query" with
      | Raise _ => JsonError 500 (lit "Failed to retrieve sources")
      | Ok query =>
          if negb (truthy query) then JsonError 400 (lit "Query cannot be empty")
          else JsonSources (get_relevant_sources (cb_vectorstore cb) query 3%Z)
      end
  end.

(** ** Specification-side definitions *)

(** Normalizing every element of a sequence in order; the first element
    that raises decides. *)
Fixpoint normalize_each (xs : list pyval) : result (list (option str)) :=
  match xs with
  | [] => Ok []
  | x :: rest =>
      r ←! _extract_text_content x;
      rs ←! normalize_each rest;
      Ok (r :: rs)
  end.

(** Absent results discarded, the non-empty strings kept. *)
Definition surviving (rs : list (option str)) : list str :=
  filter (λ t, t ≠ []) (omap id rs).

(** The text a sequence normalizes to, from its elements' results. *)
Definition joined (rs : list (option str)) : option str :=
  match surviving rs with
  | [] => None
  | parts => Some (join blank_line parts)
  end.

(** The first of [keys] present in a dict, with its value. *)
Fixpoint first_present (kvs : list (str * pyval)) (keys : list str)
  : option pyval :=
  match keys with
  | [] => None
  | key :: rest =>
      match dict_get kvs key with
      | Some v => Some v
      | None => first_present kvs rest
      end
  end.

(** The messages the assembler looks at: the most recent message of each
    event that has one. *)
Definition seen (evs : list event) : list message :=
  omap (λ ev, last (default [] (ev_messages ev))) evs.

(** The text of a message that is assistant-authored and whose content
    normalizes to text. *)
Definition qualifying_text (m : message) : option str :=
  if is_ai_message m then
    match _extract_text_content (raw_content m) with
    | Ok (Some t) => Some t
    | _ => None
    end
  else None.

Definition last_qualifying (evs : list event) : option str :=
  last (omap qualifying_text (seen evs)).


(** A message carries no role/type discriminator. *)
Definition no_discriminator (m : message) : bool :=
  match message_type m with
  | PNone => true
  | _ => false
  end.

(** The classification in which the class-name fallback is consulted only
    for a message without a discriminator. *)
Definition classified_guarded (m : message) : bool :=
  type_is_ai m || (no_discriminator m && cls_is_ai m).

(** A LangChain [AIMessageChunk]: its [type] attribute is its class name. *)
Definition ai_message_chunk (c : pyval) : message :=
  {| cls_name := lit "AIMessageChunk";
     attr_type := Some (PStr (lit "AIMessageChunk"));
     attr_content := Some c;
     dict_items := None |}.

(** A LangChain [AIMessage] and [ToolMessage]. *)
Definition ai_message (c : pyval) : message :=
  {| cls_name := lit "AIMessage"; attr_type := Some (PStr (lit "ai"));
     attr_content := Some c; dict_items := None |}.

Definition tool_message (c : pyval) : message :=
  {| cls_name := lit "ToolMessage"; attr_type := Some (PStr (lit "tool"));
     attr_content := Some c; dict_items := None |}.

(** A stream as the agent produces it: a draft, an event without messages,
    the final answer, then a tool message. *)
Definition sample_events : list event :=
  [ {| ev_messages := Some [ai_message (PStr (lit "draft"))] |};
    {| ev_messages := Some [] |};
    {| ev_messages := Some [ai_message (PStr (lit "draft"));
                            ai_message (PStr (lit " final "))] |};
    {| ev_messages := Some [tool_message (PStr (lit "passage"))] |} ].

Definition sample_agent (raises : option exn) : agent :=
  λ _, {| st_events := sample_events; st_raises := raises |}.

(** Sample passages: one with a source, one of 250 characters, a short
    one, and one whose metadata has no [source] entry. *)
Definition sourced_doc : document :=
  {| metadata := [(lit "source", PStr (lit "gale.pdf"))];
     page_content := lit "Fever is a rise in body temperature." |}.

Definition long_doc : document :=
  {| metadata := []; page_content := replicate 250 100 |}.

Definition short_doc : document :=
  {| metadata := []; page_content := lit "diabetes" |}.

Definition unsourced_doc : document :=
  {| metadata := [(lit "page", PInt 12)];
     page_content := lit "Insulin lowers blood glucose." |}.

Definition sample_chatbot : chatbot :=
  {| cb_agent := sample_agent None;
     cb_vectorstore := λ _ _, Ok [unsourced_doc] |}.

Definition index_error : exn :=
  OtherError (lit "PineconeException") (lit "index not found").

(** A session with two earlier turns, and a request body. *)
Definition sample_sid : str := lit "3f2b8c1e-session".

Definition sample_state : app_state :=
  {| convs := {[ sample_sid :=
                   [ {| turn_role := lit "user"; turn_message := lit "hello";
                        turn_timestamp := lit "2024-05-01T10:00:00" |};
                     {| turn_role := lit "assistant"; turn_message := lit "hi";
                        turn_timestamp := lit "2024-05-01T10:00:01" |} ] ]};
     session_id := Some sample_sid |}.

Definition sample_body : pyval :=
  PDict [(lit "message", PStr (lit " what is a fever? "))].

(** The two turns [chat] appends. *)
Definition user_turn (user_message t_user : str) : turn :=
  {| turn_role := lit "user"; turn_message := user_message;
     turn_timestamp := t_user |}.

Definition assistant_turn (cb : chatbot) (user_message t_bot : str) : turn :=
  {| turn_role := lit "assistant";
     turn_message := get_response (cb_agent cb) user_message;
     turn_timestamp := t_bot |}.

(** A text block whose [text] entry is [None]. *)
Definition null_text_block : pyval :=
  PDict [(lit "type", PStr (lit "text")); (lit "text", PNone)].

(** ** Construction of the engine: [MedicalChatbot.__init__], [get_chatbot] *)

(** [os.environ], once [load_dotenv()] has run. *)
Abbreviation environ := (gmap (list N) (list N)).

(** [os.getenv(key)] *)
Definition getenv (env : environ) (key : string) : option str := env !! lit key.

Definition ValueError (msg : str) : exn := OtherError (lit "ValueError") msg.

(** The tool handed to the agent: a query to a text and its passages. *)
Definition tool := str → str * list document.

Section Construction.
(** The hosted services' client objects, opaque to this code. *)
Variables embeddings llm : Type.
Variable py_format : pyval → str.
(** The fixed prompt text of [_initialize_agent]. *)
Variable system_prompt : str.

(** The constructors of the third-party clients, each of which may raise:
    [HuggingFaceEndpointEmbeddings(model=, huggingfacehub_api_token=)],
    [PineconeVectorStore(index_name=, embedding=)],
    [ChatGoogleGenerativeAI(model=, google_api_key=, temperature=0.3, timeout=60)]
    and [create_agent(llm, tools=[tool], system_prompt=)]. *)
Record services := {
  new_embeddings : str → str → result embeddings;
  new_vectorstore : str → embeddings → result vectorstore;
  new_llm : str → str → result llm;
  create_agent : llm → tool → str → result agent
}.

Definition _initialize_embeddings (svc : services) (env : environ)
  : result embeddings :=
  match getenv env "HUGGING_FACE_KEY" with
  | Some api_key =>
      if truthy api_key
      then new_embeddings svc (lit "sentence-transformers/all-MiniLM-L6-v2") api_key
      else Raise (ValueError (lit "HUGGING_FACE_KEY not found in environment variables"))
  | None =>
      Raise (ValueError (lit "HUGGING_FACE_KEY not found in environment variables"))
  end.

Definition _initialize_vectorstore (svc : services) (self_embeddings : embeddings)
  : result vectorstore :=
  new_vectorstore svc (lit "medical-chatbot") self_embeddings.

Definition _initialize_llm (svc : services) (env : environ) : result llm :=
  match getenv env "GOOGLE_API_KEY" with
  | Some google_api_key =>
      if truthy google_api_key
      then new_llm svc (lit "models/gemini-2.5-flash") google_api_key
      else Raise (ValueError (lit "GOOGLE_API_KEY not found in environment variables"))
  | None =>
      Raise (ValueError (lit "GOOGLE_API_KEY not found in environment variables"))
  end.

(** The tool closes over the vector store just built, a real object. *)
Definition _initialize_agent (svc : services) (self_vectorstore : vectorstore)
    (self_llm : llm) : result agent :=
  create_agent svc self_llm
    (retrieve_medical_context py_format (Some self_vectorstore)) system_prompt.

(** [MedicalChatbot()]: the four initializers in order; the first failure
    is re-raised. *)
Definition MedicalChatbot (svc : services) (env : environ) : result chatbot :=
  self_embeddings ←! _initialize_embeddings svc env;
  self_vectorstore ←! _initialize_vectorstore svc self_embeddings;
  self_llm ←! _initialize_llm svc env;
  self_agent ←! _initialize_agent svc self_vectorstore self_llm;
  Ok {| cb_agent := self_agent; cb_vectorstore := self_vectorstore |}.

(** [get_chatbot()], over the module-level [_chatbot_instance]: the result
    and the instance left behind. *)
Definition get_chatbot (svc : services) (env : environ)
    (_chatbot_instance : option chatbot) : result chatbot * option chatbot :=
  match _chatbot_instance with
  | Some cb => (Ok cb, Some cb)
  | None =>
      match MedicalChatbot svc env with
      | Ok cb => (Ok cb, Some cb)
      | Raise e => (Raise e, None)
      end
  end.

(** The module-level [chatbot] of [app.py]: [None] where [get_chatbot()]
    raised at import. *)
Definition app_chatbot (svc : services) (env : environ) : option chatbot :=
  match (get_chatbot svc env None).1 with
  | Ok cb => Some cb
  | Raise _ => None
  end.
End Construction.

Arguments new_embeddings {embeddings llm} _.
Arguments new_vectorstore {embeddings llm} _.
Arguments new_llm {embeddings llm} _.
Arguments create_agent {embeddings llm} _.
Arguments _initialize_embeddings {embeddings llm} svc env.
Arguments _initialize_vectorstore {embeddings llm} svc self_embeddings.
Arguments _initialize_llm {embeddings llm} svc env.
Arguments _initialize_agent {embeddings llm} py_format system_prompt svc
  self_vectorstore self_llm.
Arguments MedicalChatbot {embeddings llm} py_format system_prompt svc env.
Arguments get_chatbot {embeddings llm} py_format system_prompt svc env
  _chatbot_instance.
Arguments app_chatbot {embeddings llm} py_format system_prompt svc env.

(** ** Further specification-side definitions *)

(** Assistant-authored, in the words of the amended classification: the
    discriminator is ["ai"] or ["assistant"], or the lower-cased class name
    contains [aimessage]. *)
Definition assistant_authored (m : message) : bool :=
  match message_type m with
  | PStr t => bool_decide (t = lit "ai") || bool_decide (t = lit "assistant")
  | _ => false
  end
  || contains (lit "aimessage") (lower (cls_name m)).

(** The text of the last looked-at message that is assistant-authored and
    whose content normalizes to text. *)
Definition last_assistant_text (evs : list event) : option str :=
  last (omap (λ m, if assistant_authored m then
                     match _extract_text_content (raw_content m) with
                     | Ok (Some t) => Some t
                     | _ => None
                     end
                   else None) (seen evs)).

(** An agent of [Propagating] that raises only what [Exception] covers. *)
Definition lift (a : agent) : Propagating.agent :=
  λ user_message,
    {| Propagating.st_events := st_events (a user_message);
       Propagating.st_raises :=
         Propagating.Exception_ <$> st_raises (a user_message) |}.


(** A stream that ends normally: the assistant's answer, then a tool
    message whose content holds a text block with [None] under [text]. *)
Definition poisoned_events : list event :=
  [ {| ev_messages := Some [ai_message (PStr (lit "final"))] |};
    {| ev_messages := Some [ai_message (PStr (lit "final"));
                            tool_message (PList [null_text_block])] |} ].

Definition poisoned_agent : agent :=
  λ _, {| st_events := poisoned_events; st_raises := None |}.

(** An event that has a message to look at. *)
Definition has_messages (ev : event) : bool :=
  match default [] (ev_messages ev) with
  | [] => false
  | _ :: _ => true
  end.

(** A stream without its message-less events. *)
Definition drop_empty (s : stream) : stream :=
  {| st_events := filter (λ ev, has_messages ev = true) (st_events s);
     st_raises := st_raises s |}.

(** A history made of user turns each followed by an assistant turn. *)
Fixpoint alternating (h : list turn) : bool :=
  match h with
  | [] => true
  | u :: a :: rest =>
      bool_decide (turn_role u = lit "user")
      && bool_decide (turn_role a = lit "assistant")
      && alternating rest
  | _ => false
  end.

Definition all_alternating (c : conversations) : Prop :=
  ∀ sid h, c !! sid = Some h → alternating h = true.

(** The session id a [chat] request runs under. *)
Definition chat_sid (fresh : str) (st : app_state) : str :=
  default fresh (session_id st).

(** Services that all succeed, and ones whose vector store is unreachable. *)
Definition sample_services : services unit unit :=
  {| new_embeddings := λ _ _, Ok tt;
     new_vectorstore := λ _ _, Ok (λ _ _, Ok [sourced_doc]);
     new_llm := λ _ _, Ok tt;
     create_agent := λ _ _ _, Ok (sample_agent None) |}.

Definition failing_services : services unit unit :=
  {| new_embeddings := λ _ _, Raise index_error;
     new_vectorstore := λ _ _, Raise index_error;
     new_llm := λ _ _, Raise index_error;
     create_agent := λ _ _ _, Raise index_error |}.

Definition sample_env : environ :=
  {[ lit "HUGGING_FACE_KEY" := lit "hf_123"; lit "GOOGLE_API_KEY" := lit "g_456" ]}.

Definition env_without_google : environ :=
  {[ lit "HUGGING_FACE_KEY" := lit "hf_123"; lit "GOOGLE_API_KEY" := [] ]}.

(** A message of exactly 1000 characters wrapped in blanks, and one of 1001. *)
Definition body_of_length (n : nat) : pyval :=
  PDict [(lit "message", PStr ([32] ++ replicate n 97 ++ [32; 10]))].

(** ** Strings: what [strip] and [join] guarantee *)

Lemma lstrip_head s c : head (lstrip s) = Some c → isspace c = false.
Proof.
  induction s as [|a s IH]; simpl; [done|].
  destruct (isspace a) eqn:Ha; [done|].
  simpl. intros [= <-]. exact Ha.
Qed.

Lemma lstrip_id s : (∀ c, head s = Some c → isspace c = false) → lstrip s = s.
Proof.
  destruct s as [|a s]; simpl; [done|].
  intros H. by rewrite (H a eq_refl).
Qed.

Lemma lstrip_last s c : last (lstrip s) = Some c → last s = Some c.
Proof.
  induction s as [|a s IH]; simpl; [done|].
  destruct (isspace a); [|done].
  intros H. specialize (IH H). rewrite last_cons, IH. done.
Qed.

Lemma rstrip_last s c : last (rstrip s) = Some c → isspace c = false.
Proof. unfold rstrip. rewrite last_reverse. apply lstrip_head. Qed.

Lemma rstrip_head s c : head (rstrip s) = Some c → head s = Some c.
Proof.
  unfold rstrip. rewrite head_reverse. intros H%lstrip_last.
  by rewrite last_reverse in H.
Qed.

Lemma rstrip_id s : (∀ c, last s = Some c → isspace c = false) → rstrip s = s.
Proof.
  intros H. unfold rstrip. rewrite lstrip_id.
  - apply reverse_involutive.
  - intros c. rewrite head_reverse. apply H.
Qed.

Lemma strip_stripped s : strip s ≠ [] → stripped (strip s).
Proof.
  intros Hne. split; [done|]. split; intros c Hc.
  - apply rstrip_head in Hc. by apply lstrip_head in Hc.
  - by apply rstrip_last in Hc.
Qed.

Lemma stripped_strip s : stripped s → strip s = s.
Proof.
  intros (_ & Hh & Hl). unfold strip.
  rewrite (lstrip_id s Hh). by apply rstrip_id.
Qed.

Lemma strip_idemp s : strip (strip s) = strip s.
Proof.
  destruct (decide (strip s = [])) as [->|Hne]; [done|].
  by apply stripped_strip, strip_stripped.
Qed.

Lemma join_stripped sep parts :
  parts ≠ [] → Forall stripped parts → stripped (join sep parts).
Proof.
  induction parts as [|p rest IH]; [done|].
  intros _ Hall. apply Forall_cons in Hall as [Hp Hrest].
  destruct rest as [|q rest]; [exact Hp|].
  specialize (IH ltac:(done) Hrest).
  change (join sep (p :: q :: rest)) with (p ++ sep ++ join sep (q :: rest)).
  destruct Hp as (Hpne & Hph & _), IH as (Hjne & _ & Hjl).
  split; [by destruct p|]. split; intros c Hc.
  - apply Hph. by destruct p.
  - apply Hjl. rewrite !last_app in Hc.
    destruct (last (join sep (q :: rest))) eqn:E; [done|].
    by apply last_None in E.
Qed.

Lemma text_or_none_stripped s t : text_or_none (strip s) = Some t → stripped t.
Proof.
  unfold text_or_none. destruct (truthy (strip s)) eqn:E; [|done].
  intros [= <-]. apply strip_stripped. by destruct (strip s).
Qed.

Lemma stripped_truthy t : stripped t → truthy t = true.
Proof. intros (Hne & _). by destruct t. Qed.

(** ** Induction over nested Python values *)

Lemma pyval_nested_ind (P : pyval → Prop) :
  P PNone → (∀ b, P (PBool b)) → (∀ z, P (PInt z)) → (∀ s, P (PStr s)) →
  (∀ xs, Forall P xs → P (PList xs)) →
  (∀ kvs, Forall (λ kv, P kv.2) kvs → P (PDict kvs)) →
  ∀ v, P v.
Proof.
  intros HN HB HI HS HL HD.
  fix IH 1. intros [ | b | z | s | xs | kvs ].
  - exact HN.
  - apply HB.
  - apply HI.
  - apply HS.
  - apply HL. induction xs as [|x xs IHxs]; constructor; [apply IH | exact IHxs].
  - apply HD. induction kvs as [|[k v] kvs IHkvs]; constructor;
      [apply IH | exact IHkvs].
Qed.

(** ** The normalizer's loops, equationally *)

Lemma dict_probe_get {V A} (f : V → A) kvs key :
  dict_probe f kvs key = f <$> dict_get kvs key.
Proof.
  induction kvs as [|[k v] kvs IH]; simpl; [done|].
  by destruct (decide (k = key)).
Qed.

Lemma dict_get_elem {V} (kvs : list (str * V)) key v :
  dict_get kvs key = Some v → (key, v) ∈ kvs.
Proof.
  induction kvs as [|[k w] kvs IH]; simpl; [done|].
  destruct (decide (k = key)) as [->|].
  - intros [= ->]. apply list_elem_of_here.
  - intros H. apply list_elem_of_further. auto.
Qed.

Lemma probe_keys_first kvs keys :
  probe_keys (dict_probe _extract_text_content kvs) (Ok None) keys =
  match first_present kvs keys with
  | Some v => _extract_text_content v
  | None => Ok None
  end.
Proof.
  induction keys as [|key keys IH]; simpl; [done|].
  rewrite dict_probe_get. destruct (dict_get kvs key); simpl; [done|apply IH].
Qed.

Lemma first_present_elem kvs keys v :
  first_present kvs keys = Some v → ∃ key, (key, v) ∈ kvs.
Proof.
  induction keys as [|key keys IH]; simpl; [done|].
  destruct (dict_get kvs key) eqn:E; [|exact IH].
  intros [= ->]. eauto using dict_get_elem.
Qed.

Lemma extract_blocks_each xs parts :
  extract_blocks _extract_text_content xs parts =
  (rs ←! normalize_each xs; Ok (parts ++ surviving rs)).
Proof.
  revert parts. induction xs as [|x xs IH]; intros parts; simpl.
  - by rewrite app_nil_r.
  - destruct (_extract_text_content x) as [r|e]; simpl; [|done].
    rewrite IH. destruct (normalize_each xs) as [rs|e]; simpl; [|done].
    f_equal. destruct r as [[|c t]|]; simpl; [done| |done].
    unfold surviving. simpl. rewrite filter_cons_True by done.
    by rewrite <-app_assoc.
Qed.

(** Whatever text the normalizer returns is non-empty and has no leading or
    trailing whitespace. *)
Lemma extract_stripped v t : _extract_text_content v = Ok (Some t) → stripped t.
Proof.
  revert t. induction v as [ | b | z | s | xs IH | kvs IH ]
    using pyval_nested_ind; intros t; cbn [_extract_text_content]; try done.
  - intros [= H]. by apply text_or_none_stripped in H.
  - rewrite extract_blocks_each. unfold bind.
    assert (∀ rs, normalize_each xs = Ok rs → Forall stripped (surviving rs))
      as Hall.
    { clear t. induction IH as [|x xs Hx _ IHxs]; simpl.
      - intros rs [= <-]. constructor.
      - intros rs. destruct (_extract_text_content x) as [r|] eqn:Er; [|done].
        simpl. destruct (normalize_each xs) as [rs'|]; [|done].
        simpl. intros [= <-]. specialize (IHxs _ eq_refl).
        destruct r as [s|]; [|exact IHxs].
        unfold surviving. simpl. specialize (Hx _ eq_refl).
        rewrite filter_cons_True by apply Hx. by constructor. }
    destruct (normalize_each xs) as [rs|]; [|done]. cbn [app].
    specialize (Hall _ eq_refl).
    destruct (surviving rs) as [|p ps] eqn:Es; [done|].
    intros [= <-].
    assert (stripped (join blank_line (p :: ps))) as Hj
      by (by apply join_stripped).
    by rewrite stripped_strip.
  - destruct (eq_str _ _).
    + destruct (default (PStr []) (dict_get kvs (lit "text"))); try done.
      intros [= H]. by apply text_or_none_stripped in H.
    + rewrite probe_keys_first.
      destruct (first_present kvs fallback_keys) as [v|] eqn:E; [|done].
      apply first_present_elem in E as [key Hin].
      rewrite Forall_forall in IH. apply (IH _ Hin).
Qed.

Lemma normalize_each_stripped xs rs :
  normalize_each xs = Ok rs → Forall stripped (surviving rs).
Proof.
  revert rs. induction xs as [|x xs IH]; simpl; intros rs.
  - intros [= <-]. constructor.
  - destruct (_extract_text_content x) as [r|] eqn:Er; [|done]. simpl.
    destruct (normalize_each xs) as [rs'|]; [|done]. simpl.
    intros [= <-]. specialize (IH _ eq_refl).
    destruct r as [s|]; [|exact IH].
    apply extract_stripped in Er. unfold surviving. simpl.
    rewrite filter_cons_True by apply Er. by constructor.
Qed.

Lemma lstrip_nil s : lstrip s = [] ↔ forallb isspace s = true.
Proof.
  induction s as [|a s IH]; simpl; [done|].
  destruct (isspace a); simpl; [exact IH|]. split; discriminate.
Qed.

Lemma forallb_reverse (f : N → bool) s :
  forallb f (reverse s) = true ↔ forallb f s = true.
Proof.
  induction s as [|a s IH]; [done|].
  rewrite reverse_cons, forallb_app. simpl.
  rewrite !andb_true_iff, IH. tauto.
Qed.

Lemma strip_nil s : strip s = [] ↔ forallb isspace s = true.
Proof.
  rewrite <-lstrip_nil. unfold strip, rstrip. split.
  - intros H. apply (f_equal reverse) in H.
    rewrite reverse_involutive, reverse_nil in H.
    apply lstrip_nil in H. apply (proj1 (forallb_reverse _ _)) in H.
    destruct (lstrip s) as [|c r] eqn:E; [done|].
    pose proof (lstrip_head s c) as Hc. rewrite E in Hc.
    cbn [forallb head] in H, Hc. rewrite Hc in H by done. done.
  - by intros ->.
Qed.

(** The normalizer on a keyed record, by cases. *)
Lemma extract_dict kvs :
  _extract_text_content (PDict kvs) =
  if eq_str (get_or_none kvs "type") (lit "text") then
    match dict_get kvs (lit "text") with
    | None => Ok None
    | Some (PStr s) => Ok (text_or_none (strip s))
    | Some v => Raise (no_attribute v "strip")
    end
  else
    match first_present kvs fallback_keys with
    | Some v => _extract_text_content v
    | None => Ok None
    end.
Proof.
  cbn [_extract_text_content]. unfold get_or_none.
  destruct (eq_str _ _); [|apply probe_keys_first].
  by destruct (dict_get kvs (lit "text")) as [[]|].
Qed.

(** Of the fallback keys the first one present decides, also when its
    value normalizes to absent. *)
Lemma extract_first_key_decides :
  _extract_text_content
    (PDict [(lit "value", PStr (lit "v")); (lit "text", PStr (lit "t"));
            (lit "content", PNone)]) = Ok None
  ∧ _extract_text_content
      (PDict [(lit "value", PStr (lit "v")); (lit "text", PStr (lit " t "))])
    = Ok (Some (lit "t"))
  ∧ _extract_text_content (PDict [(lit "type", PStr (lit "text"))]) = Ok None
  ∧ _extract_text_content (PDict [(lit "role", PStr (lit "tool"))]) = Ok None.
Proof. split; [|split; [|split]]; reflexivity. Qed.

(** ** Content Normalizer: the claims *)

(** C3: a keyed record tagged ["text"] is to normalize to the trimmed value
    of its [text] entry, absent when that is empty or missing, and the
    docstring of [_extract_text_content] promises [None] where no textual
    content is present.  On a tagged record whose [text] entry is [None] the
    code calls [None.strip()] and raises [AttributeError] instead of
    returning absent, although the same entry reached through the fallback
    keys normalizes to absent. *)
Theorem extract_null_text_block_raises :
  _extract_text_content null_text_block = Raise (no_attribute PNone "strip")
  ∧ _extract_text_content null_text_block ≠ Ok None
  ∧ _extract_text_content (PDict [(lit "text", PNone)]) = Ok None.
Proof. split; [reflexivity|]. split; [discriminate | reflexivity]. Qed.

(** C4: a sequence is to normalize to the texts of its elements that yield
    text, joined by a blank line, and to absent when none does.  With the
    text block of C3 among its elements the code raises the
    [AttributeError] of C3 instead: a list holding ["a"] and that block
    does not normalize to ["a"], and a list holding only that block does
    not normalize to absent. *)
Theorem extract_list_with_null_text_block_raises :
  _extract_text_content (PList [PStr (lit "a"); null_text_block])
  = Raise (no_attribute PNone "strip")
  ∧ _extract_text_content (PList [PStr (lit "a"); null_text_block])
    ≠ Ok (Some (lit "a"))
  ∧ _extract_text_content (PList [null_text_block])
    = Raise (no_attribute PNone "strip")
  ∧ _extract_text_content (PList [null_text_block]) ≠ Ok None.
Proof.
  split; [reflexivity|]. split; [discriminate|].
  split; [reflexivity|discriminate].
Qed.

(** The list branch in terms of its elements: they are normalized in order,
    the first failure raised is the list's, and otherwise the absent
    results are discarded and the texts joined by a blank line (absent when
    there is none); so a list of an element yielding [a], one yielding
    absent and one yielding [b] normalizes to [a], a blank line, [b]. *)
Theorem extract_list_joined (xs : list pyval) (x1 x2 x3 : pyval) (a b : str) :
  _extract_text_content (PList xs) = (rs ←! normalize_each xs; Ok (joined rs))
  ∧ (_extract_text_content x1 = Ok (Some a) →
     _extract_text_content x2 = Ok None →
     _extract_text_content x3 = Ok (Some b) →
     _extract_text_content (PList [x1; x2; x3]) = Ok (Some (a ++ blank_line ++ b))).
Proof.
  assert (∀ ys, _extract_text_content (PList ys)
                = (rs ←! normalize_each ys; Ok (joined rs))) as Hgen.
  { intros ys. cbn [_extract_text_content]. rewrite extract_blocks_each.
    pose proof (normalize_each_stripped ys) as Hinv.
    unfold bind. destruct (normalize_each ys) as [rs|]; [|done].
    cbn [app]. unfold joined. specialize (Hinv _ eq_refl).
    destruct (surviving rs) as [|p ps]; [done|]. do 2 f_equal.
    by apply stripped_strip, join_stripped. }
  split; [apply Hgen|]. intros H1 H2 H3. rewrite Hgen. simpl.
  rewrite H1, H2, H3. simpl. unfold joined, surviving. simpl.
  apply extract_stripped in H1 as (Ha & _), H3 as (Hb & _).
  rewrite !filter_cons_True by done. done.
Qed.

Lemma extract_list_joined_witness :
  _extract_text_content
    (PList [PStr (lit " fever "); PNone; PDict [(lit "text", PStr (lit "rest"))]])
  = Ok (Some (lit "fever" ++ blank_line ++ lit "rest")).
Proof.
  apply (extract_list_joined [] (PStr (lit " fever ")) PNone
           (PDict [(lit "text", PStr (lit "rest"))]) (lit "fever") (lit "rest"));
    reflexivity.
Defined.

(** C8: a plain string with a non-whitespace character normalizes to its
    trimmed form, an empty or all-whitespace one to absent; hence a text the
    normalizer returned normalizes to itself. *)
Theorem extract_idempotent (s : str) (x : pyval) (t : str) :
  (existsb (λ c, negb (isspace c)) s = true →
     _extract_text_content (PStr s) = Ok (Some (strip s)))
  ∧ (forallb isspace s = true → _extract_text_content (PStr s) = Ok None)
  ∧ (_extract_text_content x = Ok (Some t) →
     _extract_text_content (PStr t) = Ok (Some t)).
Proof.
  split; [|split].
  - intros Hex. simpl. unfold text_or_none.
    destruct (strip s) as [|c r] eqn:E; [|done].
    apply strip_nil in E. exfalso. clear -Hex E.
    induction s as [|a s IH]; simpl in *; [done|].
    destruct (isspace a); simpl in *; [auto|done].
  - intros Hall%strip_nil. simpl. by rewrite Hall.
  - intros Hx%extract_stripped. simpl. rewrite (stripped_strip t Hx).
    unfold text_or_none. by rewrite (stripped_truthy t Hx).
Qed.

Lemma extract_idempotent_witness :
  _extract_text_content (PStr (lit "  take two  ")) = Ok (Some (lit "take two"))
  ∧ _extract_text_content (PStr (lit "   ")) = Ok None
  ∧ _extract_text_content (PStr (lit "take two")) = Ok (Some (lit "take two")).
Proof.
  pose proof (extract_idempotent (lit "  take two  ")
                (PList [PStr (lit "  take two  ")]) (lit "take two")) as (H1 & _ & H3).
  pose proof (extract_idempotent (lit "   ") PNone []) as (_ & H2 & _).
  split; [|split]; [apply H1 | apply H2 | apply H3]; reflexivity.
Defined.

(** ** Response Assembler: the claims *)

Lemma qualifying_text_stripped m t : qualifying_text m = Some t → stripped t.
Proof.
  unfold qualifying_text. destruct (is_ai_message m); [|done].
  destruct (_extract_text_content (raw_content m)) as [[s|]|] eqn:E; try done.
  intros [= <-]. by apply extract_stripped in E.
Qed.

Lemma on_event_seen fr ev m r :
  last (default [] (ev_messages ev)) = Some m →
  _extract_text_content (raw_content m) = Ok r →
  on_event fr ev = Ok (from_option Some fr (qualifying_text m)).
Proof.
  intros Hm Hr. unfold on_event, qualifying_text. rewrite Hm, Hr. simpl.
  destruct (is_ai_message m); simpl; [|done].
  destruct r as [t|]; simpl; [|done].
  apply extract_stripped, stripped_truthy in Hr. by rewrite Hr.
Qed.

(** The loop keeps the last qualifying text, or what it started from. *)
Lemma consume_last evs fr :
  Forall (λ m, ∃ r, _extract_text_content (raw_content m) = Ok r) (seen evs) →
  consume evs None fr = Ok (from_option Some fr (last_qualifying evs)).
Proof.
  unfold last_qualifying, seen. revert fr.
  induction evs as [|ev evs IH]; intros fr Hall; simpl; [done|].
  simpl in Hall.
  destruct (last (default [] (ev_messages ev))) as [m|] eqn:Hm; simpl in *.
  - apply Forall_cons in Hall as [[r Hr] Hall].
    rewrite (on_event_seen fr ev m r Hm Hr). simpl. rewrite (IH _ Hall).
    destruct (qualifying_text m) as [t|]; simpl; [|done].
    rewrite last_cons. by destruct (last _).
  - unfold on_event. rewrite Hm. simpl. by apply IH.
Qed.

(** A stream that raises after its events makes the loop raise the same
    exception, provided no event made it raise before. *)
Lemma consume_raises evs e fr fr' :
  consume evs None fr = Ok fr' → consume evs (Some e) fr = Raise e.
Proof.
  revert fr. induction evs as [|ev evs IH]; intros fr; simpl; [done|].
  destruct (on_event fr ev); simpl; [apply IH|done].
Qed.

Lemma msg_fallback_nonempty : msg_fallback ≠ [].
Proof. discriminate. Qed.

(** On a stream that ends normally and whose looked-at contents the
    normalizer accepts, the answer is the last qualifying text, else the
    fallback apology. *)
Theorem get_response_last_qualifying (a : agent) (user_message : str)
    (evs : list event) :
  strip user_message ≠ [] →
  a user_message = {| st_events := evs; st_raises := None |} →
  Forall (λ m, ∃ r, _extract_text_content (raw_content m) = Ok r) (seen evs) →
  get_response a user_message = default msg_fallback (last_qualifying evs)
  ∧ (last_qualifying evs = None → get_response a user_message = msg_fallback)
  ∧ get_response a user_message ≠ [].
Proof.
  intros Hvalid Hstream Hall.
  assert (get_response a user_message
          = default msg_fallback (last_qualifying evs)) as Heq.
  { unfold get_response, get_response_try.
    assert (truthy user_message = true) as ->
      by (destruct user_message; [by destruct Hvalid|done]).
    assert (truthy (strip user_message) = true) as ->
      by (by destruct (strip user_message)).
    simpl. rewrite Hstream. simpl. rewrite (consume_last evs None Hall). simpl.
    destruct (last_qualifying evs) as [t|] eqn:E; simpl; [|done].
    apply last_Some_elem_of, list_elem_of_omap in E as (m & _ & Hq).
    apply qualifying_text_stripped, stripped_truthy in Hq. by rewrite Hq. }
  split; [exact Heq|]. split.
  - intros Hnone. by rewrite Heq, Hnone.
  - rewrite Heq. destruct (last_qualifying evs) as [t|] eqn:E; simpl.
    + apply last_Some_elem_of, list_elem_of_omap in E as (m & _ & Hq).
      by apply qualifying_text_stripped in Hq as [Hne _].
    + apply msg_fallback_nonempty.
Qed.


Lemma assistant_authored_is_ai m : assistant_authored m = is_ai_message m.
Proof.
  unfold assistant_authored, is_ai_message, type_is_ai, cls_is_ai, eq_str.
  destruct (message_type m) as [ | | |t| | ]; simpl;
    repeat case_bool_decide; by destruct (contains _ _).
Qed.

Lemma last_assistant_text_qualifying evs :
  last_assistant_text evs = last_qualifying evs.
Proof.
  unfold last_assistant_text, last_qualifying, qualifying_text. f_equal.
  induction (seen evs) as [|m ms IH]; [done|].
  cbn [omap list_omap]. by rewrite assistant_authored_is_ai, IH.
Qed.

(** C1: the answer is to be the text of the last looked-at message that is
    assistant-authored with non-absent text.  On a stream that ends normally
    with the assistant's answer ["final"] followed by a tool message whose
    content holds the text block of C3, that text is ["final"], but the
    normalizer raises on the tool message and [get_response] answers with
    the generic apology. *)
Theorem get_response_poisoned_stream :
  get_response poisoned_agent (lit "what is a fever?") = msg_error
  ∧ last_assistant_text poisoned_events = Some (lit "final")
  ∧ get_response poisoned_agent (lit "what is a fever?") ≠ lit "final"
  ∧ get_response poisoned_agent (lit "what is a fever?") ≠ msg_fallback.
Proof.
  split; [reflexivity|]. split; [reflexivity|]. split; discriminate.
Qed.

(** For a valid question whose stream ends normally and in which the
    normalizer accepts the content of every looked-at message (the most
    recent message of each event), [get_response] returns the normalized
    text of the last of these messages that is assistant-authored (its
    discriminator is ["ai"] or ["assistant"], or its lower-cased class name
    contains [aimessage]) and has text; the fallback apology when there is
    none. *)
Theorem get_response_last_assistant_text (a : agent) (user_message : str)
    (evs : list event) :
  strip user_message ≠ [] →
  a user_message = {| st_events := evs; st_raises := None |} →
  Forall (λ m, ∃ r, _extract_text_content (raw_content m) = Ok r) (seen evs) →
  get_response a user_message = default msg_fallback (last_assistant_text evs)
  ∧ (last_assistant_text evs = None → get_response a user_message = msg_fallback).
Proof.
  intros Hvalid Hstream Hall. rewrite last_assistant_text_qualifying.
  destruct (get_response_last_qualifying a user_message evs Hvalid Hstream Hall)
    as (H1 & H2 & _).
  by split.
Qed.

Lemma get_response_last_assistant_text_witness :
  get_response (sample_agent None) (lit "what is a fever?") = lit "final".
Proof.
  assert (strip (lit "what is a fever?") ≠ []) as Hvalid by discriminate.
  assert (Forall (λ m, ∃ r, _extract_text_content (raw_content m) = Ok r)
            (seen sample_events)) as Hall
    by (repeat constructor; eexists; reflexivity).
  exact (proj1 (get_response_last_assistant_text (sample_agent None)
                  (lit "what is a fever?") sample_events Hvalid eq_refl Hall)).
Defined.

(** The loop's outcome, from its outcome on the events alone. *)
Lemma consume_ending evs raises fr :
  consume evs raises fr =
  match consume evs None fr with
  | Raise e => Raise e
  | Ok fr' => match raises with Some e => Raise e | None => Ok fr' end
  end.
Proof.
  revert fr. induction evs as [|ev evs IH]; intros fr; simpl.
  - by destruct raises.
  - destruct (on_event fr ev); simpl; [apply IH|done].
Qed.

Lemma propagating_consume evs raises fr :
  Propagating.consume evs raises fr =
  match consume evs None fr with
  | Raise e => Propagating.Raises (Propagating.Exception_ e)
  | Ok fr' =>
      match raises with
      | Some s => Propagating.Raises s
      | None => Propagating.Returns fr'
      end
  end.
Proof.
  revert fr. induction evs as [|ev evs IH]; intros fr; simpl.
  - by destruct raises.
  - destruct (on_event fr ev); simpl; [apply IH|done].
Qed.

(** On agents that raise nothing outside [Exception], the two embeddings
    of [get_response] agree. *)
Lemma get_response_lift (a : agent) (user_message : str) :
  Propagating.get_response (lift a) user_message
  = Propagating.Returns (get_response a user_message).
Proof.
  unfold Propagating.get_response, Propagating.get_response_try,
    get_response, get_response_try, lift.
  destruct (negb (truthy user_message) || negb (truthy (strip user_message)));
    [done|].
  cbn [Propagating.st_events Propagating.st_raises].
  rewrite propagating_consume.
  rewrite (consume_ending _ (st_raises (a user_message))). unfold bind.
  destruct (consume (st_events (a user_message)) None None) as [fr|e].
  - destruct (st_raises (a user_message)) as [e|]; simpl.
    + by destruct e.
    + by destruct (text_truthy fr).
  - by destruct e.
Qed.




(** C5, as stated, fails: an [AIMessageChunk] carries the discriminator
    ["AIMessageChunk"], which is neither ["ai"] nor ["assistant"], and is
    classified as assistant-authored through its class name all the same. *)
Lemma classified_guarded_counterexample :
  ¬ (is_ai_message (ai_message_chunk (PStr (lit "final"))) = true
     ↔ type_is_ai (ai_message_chunk (PStr (lit "final"))) = true
       ∨ (no_discriminator (ai_message_chunk (PStr (lit "final"))) = true
          ∧ cls_is_ai (ai_message_chunk (PStr (lit "final"))) = true)).
Proof.
  intros [Hcls _]. destruct (Hcls eq_refl) as [H|[H _]]; discriminate H.
Qed.

(** The classification is the disjunction of its two tests. *)
Theorem is_ai_message_classification (m : message) :
  is_ai_message m = type_is_ai m || cls_is_ai m.
Proof. unfold is_ai_message. by destruct (type_is_ai m), (cls_is_ai m). Qed.

Lemma eq_str_iff v t : eq_str v t = true ↔ v = PStr t.
Proof.
  destruct v; simpl; try (split; discriminate).
  rewrite bool_decide_eq_true. split; [by intros ->|by intros [= ->]].
Qed.

Lemma startswith_prefix s p : startswith s p = true ↔ ∃ post, s = p ++ post.
Proof.
  revert s. induction p as [|a p IH]; intros [|b s]; simpl.
  - split; [by exists []|done].
  - split; [by exists (b :: s)|done].
  - split; [done|by intros [post ?]].
  - rewrite andb_true_iff, bool_decide_eq_true, IH. split.
    + intros [-> [post ->]]. by exists post.
    + intros [post [= -> ->]]. split; [done|by exists post].
Qed.

Lemma contains_infix needle s :
  contains needle s = true ↔ ∃ pre post, s = pre ++ needle ++ post.
Proof.
  induction s as [|c s IH].
  - cbn [contains]. rewrite orb_false_r, startswith_prefix. split.
    + intros [post ->]. by exists [], post.
    + intros (pre & post & H). destruct pre; [by exists post|done].
  - cbn [contains]. rewrite orb_true_iff, startswith_prefix, IH. split.
    + intros [[post ->]|(pre & post & ->)].
      * by exists [], post.
      * by exists (c :: pre), post.
    + intros ([|c' pre] & post & H).
      * left. by exists post.
      * right. injection H as -> ->. by exists pre, post.
Qed.

(** C5, amended: a message is classified as assistant-authored exactly when
    its role/type discriminator is the string ["ai"] or ["assistant"], or,
    whatever the discriminator is otherwise (none, or one with another
    value), when its lower-cased class name contains [aimessage].  The
    discriminator is the [type] attribute of an object that has one; of a
    [dict] without it, the [type] entry when that is truthy and the [role]
    entry otherwise; and none for anything else. *)
Theorem is_ai_message_iff (m : message) :
  (is_ai_message m = true ↔
   message_type m = PStr (lit "ai") ∨ message_type m = PStr (lit "assistant")
   ∨ ∃ pre post, lower (cls_name m) = pre ++ lit "aimessage" ++ post)
  ∧ (∀ t, attr_type m = Some t → message_type m = t)
  ∧ (∀ kvs, attr_type m = None → dict_items m = Some kvs →
     message_type m
     = if py_truthy (get_or_none kvs "type")
       then get_or_none kvs "type" else get_or_none kvs "role")
  ∧ (attr_type m = None → dict_items m = None → message_type m = PNone).
Proof.
  split; [|split; [|split]].
  - rewrite is_ai_message_classification, orb_true_iff.
    unfold type_is_ai, cls_is_ai.
    rewrite orb_true_iff, !eq_str_iff, contains_infix. tauto.
  - intros t Ht. unfold message_type. by rewrite Ht.
  - intros kvs Ht Hd. unfold message_type. by rewrite Ht, Hd.
  - intros Ht Hd. unfold message_type. by rewrite Ht, Hd.
Qed.

Lemma is_ai_message_iff_witness :
  is_ai_message (ai_message_chunk (PStr (lit "final"))) = true
  ∧ is_ai_message {| cls_name := lit "dict"; attr_type := None;
                     attr_content := None;
                     dict_items := Some [(lit "role", PStr (lit "assistant"));
                                         (lit "content", PStr (lit "hi"))] |}
    = true
  ∧ is_ai_message (tool_message (PStr (lit "passage"))) = false.
Proof.
  split; [|split].
  - apply (proj1 (is_ai_message_iff (ai_message_chunk (PStr (lit "final"))))).
    right. right. by exists [], (lit "chunk").
  - apply (proj1 (is_ai_message_iff _)). right. left. reflexivity.
  - destruct (is_ai_message (tool_message (PStr (lit "passage")))) eqn:E;
      [|done].
    apply (proj1 (is_ai_message_iff _)) in E
      as [E|[E|(pre & post & E)]]; [discriminate E|discriminate E|].
    exfalso. apply (f_equal (contains (lit "aimessage"))) in E.
    rewrite (proj2 (contains_infix (lit "aimessage") (pre ++ lit "aimessage" ++ post)))
      in E by (by exists pre, post).
    discriminate E.
Defined.

(** ** Retrieval Tool Adapter: the claims *)

Lemma lookup_sources search query k docs i d :
  search query k = Ok docs → docs !! i = Some d →
  get_relevant_sources search query k !! i = Some (source_of_doc d).
Proof.
  intros Hs Hd. unfold get_relevant_sources. rewrite Hs.
  by rewrite list_lookup_fmap, Hd.
Qed.

(** C6: the retrieval tool never raises and tells three failure-like
    outcomes apart, each with an empty passage list: no vector store handle,
    a search without passages, and a raised failure, whose text is appended
    to a fixed prefix.  Otherwise every passage is rendered as
    [Source: ...], a newline, [Content: ...], the renderings are joined by a
    blank line, and the passages are returned alongside. *)
Theorem retrieve_medical_context_outcomes (py_format : pyval → str)
    (search : vectorstore) (query : str) (e : exn) (docs : list document)
    (d : document) (s : str) :
  retrieve_medical_context py_format None query = (msg_unavailable, [])
  ∧ (search query 3%Z = Ok [] →
     retrieve_medical_context py_format (Some search) query = (msg_no_results, []))
  ∧ (search query 3%Z = Raise e →
     retrieve_medical_context py_format (Some search) query
     = (error_prefix ++ exn_str e, []))
  ∧ (search query 3%Z = Ok docs → docs ≠ [] →
     retrieve_medical_context py_format (Some search) query
     = (join blank_line (format_doc py_format <$> docs), docs))
  ∧ (doc_source d = PStr s →
     format_doc py_format d
     = lit "Source: " ++ s ++ [10] ++ lit "Content: " ++ page_content d)
  ∧ msg_unavailable ≠ msg_no_results
  ∧ error_prefix ++ exn_str e ≠ msg_unavailable
  ∧ error_prefix ++ exn_str e ≠ msg_no_results.
Proof.
  split; [done|]. split; [|split; [|split; [|split; [|split; [|split]]]]].
  - intros H. simpl. by rewrite H.
  - intros H. simpl. by rewrite H.
  - intros H Hne. simpl. rewrite H. by destruct docs.
  - intros H. unfold format_doc. by rewrite H.
  - discriminate.
  - intros H. apply (f_equal head) in H. discriminate.
  - intros H. apply (f_equal head) in H. discriminate.
Qed.

Lemma retrieve_medical_context_outcomes_witness :
  retrieve_medical_context (λ _, []) (Some (λ _ _, Ok [])) (lit "fever")
  = (msg_no_results, [])
  ∧ retrieve_medical_context (λ _, []) (Some (λ _ _, Raise index_error))
      (lit "fever")
    = (lit "Error accessing knowledge base: index not found", [])
  ∧ retrieve_medical_context (λ _, [])
      (Some (λ _ _, Ok [sourced_doc; sourced_doc])) (lit "fever")
    = (lit "Source: gale.pdf" ++ [10]
       ++ lit "Content: Fever is a rise in body temperature." ++ [10; 10]
       ++ lit "Source: gale.pdf" ++ [10]
       ++ lit "Content: Fever is a rise in body temperature.",
       [sourced_doc; sourced_doc]).
Proof.
  split; [|split].
  - exact (proj1 (proj2 (retrieve_medical_context_outcomes (λ _, [])
                           (λ _ _, Ok []) (lit "fever") index_error []
                           sourced_doc []))
             eq_refl).
  - exact (proj1 (proj2 (proj2 (retrieve_medical_context_outcomes (λ _, [])
                                  (λ _ _, Raise index_error) (lit "fever")
                                  index_error [] sourced_doc [])))
             eq_refl).
  - assert ([sourced_doc; sourced_doc] ≠ []) as Hne by discriminate.
    exact (proj1 (proj2 (proj2 (proj2 (retrieve_medical_context_outcomes
                                         (λ _, [])
                                         (λ _ _, Ok [sourced_doc; sourced_doc])
                                         (lit "fever") index_error
                                         [sourced_doc; sourced_doc]
                                         sourced_doc []))))
             eq_refl Hne).
Defined.

(** C7: each entry [get_relevant_sources] returns carries its passage's
    content cut to the first 200 characters and followed by [...] when the
    content is longer than 200 characters (203 characters for a content of
    250), and the content itself otherwise; a failed search gives the empty
    list. *)
Theorem get_relevant_sources_preview (search : vectorstore) (query : str)
    (k : Z) (docs : list document) (i : nat) (d : document) (e : exn) :
  (search query k = Ok docs → docs !! i = Some d →
   ∃ entry, get_relevant_sources search query k !! i = Some entry
     ∧ (200 < length (page_content d) →
        content entry = take 200 (page_content d) ++ lit "...")%nat
     ∧ (length (page_content d) = 250 → length (content entry) = 203)%nat
     ∧ (length (page_content d) ≤ 200 → content entry = page_content d)%nat)
  ∧ (search query k = Ok docs →
     length (get_relevant_sources search query k) = length docs)
  ∧ (search query k = Raise e → get_relevant_sources search query k = []).
Proof.
  split; [|split].
  - intros Hs Hd. exists (source_of_doc d).
    split; [by apply (lookup_sources search query k docs)|].
    simpl. unfold preview.
    destruct (200 <? length (page_content d))%nat eqn:E.
    + apply Nat.ltb_lt in E. split; [done|]. split; [|lia].
      intros Hlen. rewrite length_app, length_take, Hlen. reflexivity.
    + apply Nat.ltb_ge in E. split; [lia|]. split; [lia|done].
  - intros Hs. unfold get_relevant_sources. rewrite Hs. apply length_fmap.
  - intros Hs. unfold get_relevant_sources. by rewrite Hs.
Qed.

Lemma get_relevant_sources_preview_witness :
  (∃ entry,
     get_relevant_sources (λ _ _, Ok [long_doc; short_doc]) (lit "diabetes") 3%Z
       !! 0%nat = Some entry
     ∧ length (content entry) = 203%nat)
  ∧ (∃ entry,
       get_relevant_sources (λ _ _, Ok [long_doc; short_doc]) (lit "diabetes") 3%Z
         !! 1%nat = Some entry
       ∧ content entry = lit "diabetes")
  ∧ get_relevant_sources (λ _ _, Raise index_error) (lit "diabetes") 3%Z = [].
Proof.
  split; [|split].
  - destruct (proj1 (get_relevant_sources_preview
                       (λ _ _, Ok [long_doc; short_doc]) (lit "diabetes") 3%Z
                       [long_doc; short_doc] 0%nat long_doc index_error)
                eq_refl eq_refl) as (entry & He & _ & H250 & _).
    exists entry. split; [exact He|]. apply H250. reflexivity.
  - destruct (proj1 (get_relevant_sources_preview
                       (λ _ _, Ok [long_doc; short_doc]) (lit "diabetes") 3%Z
                       [long_doc; short_doc] 1%nat short_doc index_error)
                eq_refl eq_refl) as (entry & He & _ & _ & Hshort).
    exists entry. split; [exact He|]. apply Hshort. simpl. lia.
  - exact (proj2 (proj2 (get_relevant_sources_preview
                           (λ _ _, Raise index_error) (lit "diabetes") 3%Z
                           [] 0%nat long_doc index_error)) eq_refl).
Defined.



(** ** Session & History Store: the claims *)

Lemma truthy_nonempty (s : str) : s ≠ [] → truthy s = true.
Proof. by destruct s. Qed.

Lemma get_lookup (sid : str) (c : conversations) turns :
  sid ≠ [] → c !! sid = Some turns → get sid c = turns.
Proof.
  intros Hne Hl. unfold get. rewrite (truthy_nonempty sid Hne).
  rewrite bool_decide_true by (by rewrite Hl). simpl. by rewrite Hl.
Qed.

Lemma get_unknown (sid : str) (c : conversations) : c !! sid = None → get sid c = [].
Proof.
  intros Hl. unfold get.
  rewrite bool_decide_false by (rewrite Hl; by intros [? ?]).
  by rewrite orb_true_r.
Qed.

Lemma clear_known (sid : str) (c : conversations) :
  sid ≠ [] → is_Some (c !! sid) → clear sid c = <[sid := []]> c.
Proof.
  intros Hne Hs. unfold clear. rewrite (truthy_nonempty sid Hne).
  by rewrite bool_decide_true.
Qed.

Lemma clear_unknown (sid : str) (c : conversations) : c !! sid = None → clear sid c = c.
Proof.
  intros Hl. unfold clear.
  rewrite bool_decide_false by (rewrite Hl; by intros [? ?]).
  by rewrite andb_false_r.
Qed.

Lemma ensure_clear_lookup (sid : str) (c : conversations) :
  sid ≠ [] → ensure sid (clear sid c) !! sid = Some [].
Proof.
  intros Hne. destruct (c !! sid) as [turns|] eqn:Hl.
  - rewrite clear_known by (done || by eexists). unfold ensure.
    by rewrite lookup_insert_eq, lookup_insert_eq.
  - rewrite clear_unknown by done. unfold ensure. rewrite Hl.
    by rewrite lookup_insert_eq.
Qed.

(** C9: reading the history of a session id that is not in the store, or
    with no session id at all, gives the empty list; clearing a session id
    that is in the store leaves it there with an empty list and leaves the
    other sessions alone, and clearing an unknown one changes nothing; after
    a clear, the first turn appended is the first element of the history, as
    it is through [chat].  Session ids are the non-empty strings
    [str(uuid.uuid4())] mints. *)
Theorem history_store_get_clear_append (c : conversations) (sid other : str)
    (t : turn) (cb : chatbot) (data : pyval)
    (user_message fresh t_user t_bot t_resp : str) :
  (c !! sid = None →
   get sid c = []
   ∧ get_history {| convs := c; session_id := Some sid |} = JsonHistory [])
  ∧ get_history {| convs := c; session_id := None |} = JsonHistory []
  ∧ (sid ≠ [] → is_Some (c !! sid) →
     clear sid c !! sid = Some [] ∧ get sid (clear sid c) = []
     ∧ (other ≠ sid → clear sid c !! other = c !! other))
  ∧ (c !! sid = None → clear sid c = c)
  ∧ (sid ≠ [] →
     ∃ c', append sid t (ensure sid (clear sid c)) = Ok c' ∧ get sid c' = [t])
  ∧ (sid ≠ [] → body_field data "message" = Ok user_message →
     user_message ≠ [] → (length user_message ≤ 1000)%nat →
     ∃ resp st',
       chat (Some cb) data fresh t_user t_bot t_resp
         (clear_history {| convs := c; session_id := Some sid |}).2 = (resp, st')
       ∧ get_history st'
         = JsonHistory [user_turn user_message t_user;
                        assistant_turn cb user_message t_bot]).
Proof.
  split; [|split; [done|split; [|split; [|split]]]].
  - intros Hl. split; [by apply get_unknown|].
    unfold get_history. simpl. by rewrite get_unknown.
  - intros Hne Hs. rewrite clear_known by done.
    split; [apply lookup_insert_eq|]. split.
    + apply get_lookup; [done|apply lookup_insert_eq].
    + intros Ho. by apply lookup_insert_ne.
  - apply clear_unknown.
  - intros Hne. unfold append. rewrite ensure_clear_lookup by done.
    eexists. split; [reflexivity|].
    apply get_lookup; [done|]. by rewrite lookup_insert_eq.
  - intros Hne Hbody Hmsg Hlen. unfold chat. simpl. rewrite Hbody.
    rewrite (truthy_nonempty user_message Hmsg). simpl.
    assert ((1000 <? length user_message)%nat = false) as ->
      by (by apply Nat.ltb_ge).
    unfold append. rewrite ensure_clear_lookup by done.
    rewrite lookup_insert_eq. do 2 eexists. split; [reflexivity|].
    unfold get_history. simpl. f_equal.
    apply get_lookup; [done|]. by rewrite lookup_insert_eq.
Qed.

Lemma history_store_get_clear_append_witness :
  get (lit "unknown-session") (convs sample_state) = []
  ∧ clear sample_sid (convs sample_state) !! sample_sid = Some []
  ∧ clear (lit "unknown-session") (convs sample_state) = convs sample_state
  ∧ ∃ resp st',
      chat (Some sample_chatbot) sample_body (lit "fresh-uuid")
        (lit "10:05:00") (lit "10:05:02") (lit "10:05:03")
        (clear_history sample_state).2 = (resp, st')
      ∧ get_history st'
        = JsonHistory
            [ {| turn_role := lit "user"; turn_message := lit "what is a fever?";
                 turn_timestamp := lit "10:05:00" |};
              {| turn_role := lit "assistant"; turn_message := lit "final";
                 turn_timestamp := lit "10:05:02" |} ].
Proof.
  assert (sample_sid ≠ []) as Hsid by discriminate.
  assert (lit "what is a fever?" ≠ []) as Hmsg by discriminate.
  assert (convs sample_state !! lit "unknown-session" = None) as Hun
    by (apply lookup_singleton_ne; discriminate).
  assert (is_Some (convs sample_state !! sample_sid)) as Hin
    by (eexists; apply lookup_singleton_eq).
  pose proof (history_store_get_clear_append (convs sample_state)
                (lit "unknown-session") sample_sid
                (user_turn [] []) sample_chatbot sample_body
                (lit "what is a fever?") (lit "fresh-uuid")
                (lit "10:05:00") (lit "10:05:02") (lit "10:05:03"))
    as (Hget & _ & _ & Hnoop & _).
  pose proof (history_store_get_clear_append (convs sample_state)
                sample_sid (lit "unknown-session")
                (user_turn [] []) sample_chatbot sample_body
                (lit "what is a fever?") (lit "fresh-uuid")
                (lit "10:05:00") (lit "10:05:02") (lit "10:05:03"))
    as (_ & _ & Hclear & _ & _ & Hchat).
  split; [exact (proj1 (Hget Hun))|].
  split; [exact (proj1 (Hclear Hsid Hin))|].
  split; [exact (Hnoop Hun)|].
  assert (length (lit "what is a fever?") ≤ 1000)%nat as Hlen
    by (vm_compute; lia).
  exact (Hchat Hsid eq_refl Hmsg Hlen).
Defined.

(** ** Content Normalizer: further properties *)

Lemma normalize_each_app xs ys :
  normalize_each (xs ++ ys) =
  (rs ←! normalize_each xs; rs' ←! normalize_each ys; Ok (rs ++ rs')).
Proof.
  induction xs as [|x xs IH]; simpl.
  - by destruct (normalize_each ys).
  - destruct (_extract_text_content x); simpl; [|done]. rewrite IH.
    destruct (normalize_each xs); simpl; [|done].
    by destruct (normalize_each ys).
Qed.

Lemma extract_list_each xs :
  _extract_text_content (PList xs) =
  (rs ←! normalize_each xs;
   match surviving rs with
   | [] => Ok None
   | parts => Ok (Some (strip (join blank_line parts)))
   end).
Proof.
  cbn [_extract_text_content]. rewrite extract_blocks_each. unfold bind.
  destruct (normalize_each xs) as [rs|]; [|done]. cbn [app].
  by destruct (surviving rs).
Qed.

Lemma surviving_app rs rs' : surviving (rs ++ rs') = surviving rs ++ surviving rs'.
Proof. unfold surviving. by rewrite omap_app, filter_app. Qed.

(** A text the normalizer returns is never empty and carries no leading or
    trailing whitespace, whatever the nesting it was found in. *)
Theorem normalizer_text_is_trimmed (v : pyval) (t : str) :
  _extract_text_content v = Ok (Some t) →
  t ≠ [] ∧ strip t = t
  ∧ (∀ c, head t = Some c → isspace c = false)
  ∧ (∀ c, last t = Some c → isspace c = false).
Proof.
  intros H%extract_stripped. split; [apply H|].
  split; [by apply stripped_strip|]. split; apply H.
Qed.

Lemma normalizer_text_is_trimmed_witness :
  lit "a" ++ blank_line ++ lit "b c" ≠ []
  ∧ strip (lit "a" ++ blank_line ++ lit "b c") = lit "a" ++ blank_line ++ lit "b c".
Proof.
  pose proof (normalizer_text_is_trimmed
                (PList [PStr (lit " a "); PList [];
                        PDict [(lit "content", PList [PStr (lit "b c  ")])]])
                (lit "a" ++ blank_line ++ lit "b c") eq_refl) as (H1 & H2 & _).
  exact (conj H1 H2).
Defined.

(** Wrappers are transparent: a one-element list, and a record whose only
    entry is [content], normalize exactly as what they wrap (a raised
    failure included); and an element that normalizes to absent can be
    taken out of a list without changing its normalization. *)
Theorem normalizer_wrappers_transparent (x : pyval) (xs ys : list pyval) :
  _extract_text_content (PList [x]) = _extract_text_content x
  ∧ _extract_text_content (PDict [(lit "content", x)]) = _extract_text_content x
  ∧ (_extract_text_content x = Ok None →
     _extract_text_content (PList (xs ++ x :: ys))
     = _extract_text_content (PList (xs ++ ys))).
Proof.
  split; [|split].
  - rewrite extract_list_each. simpl.
    destruct (_extract_text_content x) as [[t|]|] eqn:E; simpl; try done.
    apply extract_stripped in E. unfold surviving. simpl.
    rewrite filter_cons_True by apply E. simpl.
    by rewrite (stripped_strip t E).
  - rewrite extract_dict. reflexivity.
  - intros Hx. rewrite !extract_list_each.
    rewrite !normalize_each_app. simpl. rewrite Hx. simpl.
    destruct (normalize_each xs) as [rs|]; simpl; [|done].
    destruct (normalize_each ys) as [rs'|]; simpl; [|done].
    by rewrite !surviving_app.
Qed.

Lemma normalizer_wrappers_transparent_witness :
  _extract_text_content
    (PList ([PStr (lit "a")] ++ PStr (lit "  ") :: [PStr (lit "b")]))
  = _extract_text_content (PList ([PStr (lit "a")] ++ [PStr (lit "b")])).
Proof.
  exact (proj2 (proj2 (normalizer_wrappers_transparent (PStr (lit "  "))
                         [PStr (lit "a")] [PStr (lit "b")])) eq_refl).
Defined.

(** In a record not tagged ["text"] the entry read is chosen by key name,
    [content] before [text] before [value], wherever the keys sit in the
    record; a record with none of them normalizes to absent.  A record
    tagged ["text"] with a [str] under [text] normalizes to its trimmed
    text, and to absent when it has no [text] entry. *)
Theorem normalizer_record_priority (kvs : list (str * pyval)) (v : pyval)
    (s : str) :
  (eq_str (get_or_none kvs "type") (lit "text") = false →
   (dict_get kvs (lit "content") = Some v →
    _extract_text_content (PDict kvs) = _extract_text_content v)
   ∧ (dict_get kvs (lit "content") = None → dict_get kvs (lit "text") = Some v →
      _extract_text_content (PDict kvs) = _extract_text_content v)
   ∧ (dict_get kvs (lit "content") = None → dict_get kvs (lit "text") = None →
      dict_get kvs (lit "value") = Some v →
      _extract_text_content (PDict kvs) = _extract_text_content v)
   ∧ (dict_get kvs (lit "content") = None → dict_get kvs (lit "text") = None →
      dict_get kvs (lit "value") = None →
      _extract_text_content (PDict kvs) = Ok None))
  ∧ (eq_str (get_or_none kvs "type") (lit "text") = true →
     (dict_get kvs (lit "text") = Some (PStr s) →
      _extract_text_content (PDict kvs) = Ok (text_or_none (strip s)))
     ∧ (dict_get kvs (lit "text") = None →
        _extract_text_content (PDict kvs) = Ok None)).
Proof.
  rewrite extract_dict. split; intros ->.
  - unfold fallback_keys. cbn [first_present].
    split; [|split; [|split]].
    + by intros ->.
    + by intros -> ->.
    + by intros -> -> ->.
    + by intros -> -> ->.
  - split; by intros ->.
Qed.

Lemma normalizer_record_priority_witness :
  _extract_text_content
    (PDict [(lit "value", PStr (lit "v")); (lit "text", PStr (lit " t "));
            (lit "role", PStr (lit "tool"))])
  = _extract_text_content (PStr (lit " t ")).
Proof.
  exact (proj1 (proj2 (proj1 (normalizer_record_priority
                                [(lit "value", PStr (lit "v"));
                                 (lit "text", PStr (lit " t "));
                                 (lit "role", PStr (lit "tool"))]
                                (PStr (lit " t ")) []) eq_refl))
           eq_refl eq_refl).
Defined.

(** ** Response Assembler: further properties *)

(** A question that is empty or all whitespace is answered with the request
    for a valid question, whatever the agent would do: the agent is not
    consulted. *)
Theorem get_response_blank_question (a : agent) (user_message : str) :
  forallb isspace user_message = true →
  get_response a user_message = msg_invalid.
Proof.
  intros Hblank%strip_nil. unfold get_response, get_response_try.
  rewrite Hblank. simpl. by rewrite orb_true_r.
Qed.

Lemma get_response_blank_question_witness :
  get_response (sample_agent (Some index_error)) (lit "   ") = msg_invalid.
Proof.
  exact (get_response_blank_question (sample_agent (Some index_error))
           (lit "   ") eq_refl).
Defined.

Lemma on_event_stripped fr ev fr' :
  on_event fr ev = Ok fr' →
  (∀ t, fr = Some t → stripped t) → ∀ t, fr' = Some t → stripped t.
Proof.
  unfold on_event. destruct (last (default [] (ev_messages ev))) as [m|].
  - destruct (_extract_text_content (raw_content m)) as [r|] eqn:E; [|done].
    simpl. destruct (is_ai_message m && text_truthy r).
    + intros [= <-] _ t ->. by apply extract_stripped in E.
    + by intros [= <-].
  - by intros [= <-].
Qed.

Lemma consume_stripped evs raises fr fr' :
  consume evs raises fr = Ok fr' →
  (∀ t, fr = Some t → stripped t) → ∀ t, fr' = Some t → stripped t.
Proof.
  revert fr. induction evs as [|ev evs IH]; intros fr; simpl.
  - destruct raises; [done|]. by intros [= <-].
  - destruct (on_event fr ev) as [fr1|] eqn:E; [|done]. simpl.
    intros Hc Hfr. apply (IH fr1 Hc). by apply (on_event_stripped fr ev).
Qed.

Lemma canned_strings_stripped :
  stripped msg_invalid ∧ stripped msg_fallback
  ∧ stripped msg_timeout ∧ stripped msg_error.
Proof.
  assert (∀ m, m ≠ [] → strip m = m → stripped m) as Hs
    by (intros m Hne Hm; rewrite <-Hm; apply strip_stripped; by rewrite Hm).
  split; [|split; [|split]]; apply Hs; (discriminate || reflexivity).
Qed.

(** Whatever the agent streams and whatever is raised, the answer of
    [get_response] is a non-empty string without leading or trailing
    whitespace. *)
Theorem get_response_answer_trimmed (a : agent) (user_message : str) :
  get_response a user_message ≠ []
  ∧ strip (get_response a user_message) = get_response a user_message.
Proof.
  assert (stripped (get_response a user_message)) as Hs.
  { destruct canned_strings_stripped as (Hi & Hf & Ht & He).
    unfold get_response, get_response_try.
    destruct (negb (truthy user_message) || negb (truthy (strip user_message)));
      [exact Hi|].
    destruct (consume _ _ None) as [fr|e] eqn:Ec; simpl.
    - destruct fr as [t|]; simpl; [|exact Hf].
      pose proof (consume_stripped _ _ _ _ Ec ltac:(done) t eq_refl) as Hst.
      by rewrite (stripped_truthy t Hst).
    - by destruct e. }
  split; [apply Hs|by apply stripped_strip].
Qed.

Lemma consume_drop_empty evs raises fr :
  consume (filter (λ ev, has_messages ev = true) evs) raises fr
  = consume evs raises fr.
Proof.
  revert fr. induction evs as [|ev evs IH]; intros fr; [done|].
  destruct (has_messages ev) eqn:Hm.
  - rewrite filter_cons_True by done. simpl.
    destruct (on_event fr ev); simpl; [apply IH|done].
  - rewrite filter_cons_False by (by rewrite Hm). simpl.
    unfold on_event, has_messages in *.
    destruct (default [] (ev_messages ev)); [|done]. simpl. apply IH.
Qed.

(** Events that carry no message (no [messages] entry, or an empty list)
    can be removed from the stream without changing the answer. *)
Theorem get_response_ignores_empty_events (a : agent) (user_message : str) :
  get_response (λ m, drop_empty (a m)) user_message = get_response a user_message.
Proof.
  unfold get_response, get_response_try.
  destruct (negb (truthy user_message) || negb (truthy (strip user_message)));
    [done|].
  simpl. by rewrite consume_drop_empty.
Qed.

(** ** Retrieval Tool Adapter: further properties *)

Lemma head_join_cons sep (p : str) rest c :
  head p = Some c → head (join sep (p :: rest)) = Some c.
Proof. destruct p; [done|]. by destruct rest. Qed.

(** The tool's text is never empty; with a vector store at hand it is never
    the unavailable notice, and the passages it returns are exactly those
    the search found, none when the search failed. *)
Theorem retrieve_medical_context_text (py_format : pyval → str)
    (vs : option vectorstore) (search : vectorstore) (query : str) :
  (retrieve_medical_context py_format vs query).1 ≠ []
  ∧ (retrieve_medical_context py_format (Some search) query).1 ≠ msg_unavailable
  ∧ (retrieve_medical_context py_format (Some search) query).2
    = match search query 3%Z with Ok docs => docs | Raise _ => [] end.
Proof.
  assert (∀ s query, ∃ c,
            head (retrieve_medical_context py_format (Some s) query).1 = Some c
            ∧ c ≠ 75) as Hhead.
  { intros s q. unfold retrieve_medical_context.
    destruct (s q 3%Z) as [[|d docs]|e]; cbn [fst].
    - by exists 78.
    - exists 83. split; [|done]. rewrite fmap_cons. by apply head_join_cons.
    - by exists 69. }
  split; [|split].
  - destruct vs as [s|]; [|discriminate].
    destruct (Hhead s query) as (c & Hc & _). intros H. by rewrite H in Hc.
  - destruct (Hhead search query) as (c & Hc & Hne). intros H.
    rewrite H in Hc. by injection Hc.
  - unfold retrieve_medical_context.
    by destruct (search query 3%Z) as [[|d docs]|e].
Qed.

Lemma preview_length (c : str) :
  length (preview c) = if (200 <? length c)%nat then 203%nat else length c.
Proof.
  unfold preview. destruct (200 <? length c)%nat eqn:E; [|done].
  apply Nat.ltb_lt in E. rewrite length_app, length_take.
  change (length (lit "...")) with 3%nat. lia.
Qed.

Lemma preview_take (c : str) : take 200 (preview c) = take 200 c.
Proof.
  unfold preview. destruct (200 <? length c)%nat eqn:E; [|done].
  apply Nat.ltb_lt in E. rewrite take_app_le by (rewrite length_take; lia).
  by rewrite take_take.
Qed.

(** Every entry [get_relevant_sources] returns comes from a passage the
    search found; its content is at most 203 characters long, agrees with
    the passage's content on the first 200 characters, and its source is the
    passage's [source] metadata entry where there is one.  There are as many
    entries as passages, whatever [k] was asked for. *)
Theorem get_relevant_sources_bounded (search : vectorstore) (query : str)
    (k : Z) (entry : source_entry) :
  entry ∈ get_relevant_sources search query k →
  (length (content entry) ≤ 203)%nat
  ∧ ∃ docs d, search query k = Ok docs ∧ d ∈ docs
      ∧ length (get_relevant_sources search query k) = length docs
      ∧ take 200 (content entry) = take 200 (page_content d)
      ∧ (length (content entry)
         = if (200 <? length (page_content d))%nat
           then 203 else length (page_content d))%nat
      ∧ (∀ v, dict_get (metadata d) (lit "source") = Some v → source entry = v).
Proof.
  unfold get_relevant_sources. destruct (search query k) as [docs|e] eqn:Es.
  - intros (d & -> & Hd)%list_elem_of_fmap. simpl. split.
    + rewrite preview_length. destruct (200 <? _)%nat eqn:E; [lia|].
      apply Nat.ltb_ge in E. lia.
    + exists docs, d. split; [done|]. split; [done|].
      split; [apply length_fmap|]. split; [apply preview_take|].
      split; [apply preview_length|].
      intros v Hv. unfold doc_source. by rewrite Hv.
  - by intros ?%elem_of_nil.
Qed.

Lemma get_relevant_sources_bounded_witness :
  (length (content (source_of_doc long_doc)) ≤ 203)%nat.
Proof.
  assert (source_of_doc long_doc
          ∈ get_relevant_sources (λ _ _, Ok [short_doc; long_doc])
              (lit "diabetes") 7%Z) as Hin
    by (apply list_elem_of_further, list_elem_of_here).
  exact (proj1 (get_relevant_sources_bounded (λ _ _, Ok [short_doc; long_doc])
                  (lit "diabetes") 7%Z (source_of_doc long_doc) Hin)).
Defined.

(** ** Session & History Store and handlers: further properties *)

Lemma ensure_lookup (sid : str) (c : conversations) :
  ensure sid c !! sid = Some (default [] (c !! sid)).
Proof.
  unfold ensure. destruct (c !! sid) eqn:E; simpl; [done|].
  apply lookup_insert_eq.
Qed.

Lemma ensure_insert (sid : str) (c : conversations) (h : list turn) :
  <[sid := h]> (ensure sid c) = <[sid := h]> c.
Proof.
  unfold ensure. destruct (c !! sid); [done|]. apply insert_insert_eq.
Qed.

(** What [chat] does, in two cases: it answers with an error and leaves
    the state alone, or the request is valid and the session's history
    grows by the user turn and the assistant turn. *)
Lemma chat_outcome cb data fresh t_user t_bot t_resp st :
  (∃ code err,
     chat cb data fresh t_user t_bot t_resp st = (JsonError code err, st))
  ∨ (∃ c m, cb = Some c ∧ body_field data "message" = Ok m ∧ m ≠ []
       ∧ (length m ≤ 1000)%nat
       ∧ chat cb data fresh t_user t_bot t_resp st
         = (JsonChat (get_response (cb_agent c) m) t_resp,
            {| convs :=
                 <[chat_sid fresh st :=
                     default [] (convs st !! chat_sid fresh st)
                     ++ [user_turn m t_user; assistant_turn c m t_bot]]>
                   (convs st);
               session_id := Some (chat_sid fresh st) |})).
Proof.
  unfold chat. destruct cb as [c|]; [|left; by do 2 eexists].
  destruct (body_field data "message") as [m|e]; [|left; by do 2 eexists].
  destruct (truthy m) eqn:Hm; simpl; [|left; by do 2 eexists].
  destruct (1000 <? length m)%nat eqn:Hlen; [left; by do 2 eexists|].
  right. exists c, m. split; [done|]. split; [done|].
  split; [by destruct m|]. split; [by apply Nat.ltb_ge|].
  fold (chat_sid fresh st). unfold append.
  rewrite ensure_lookup, lookup_insert_eq. f_equal.
  rewrite insert_insert_eq, ensure_insert, <-app_assoc. reflexivity.
Qed.

(** A [chat] request answered with an error, whichever one, leaves the
    session and every stored history as they were. *)
Theorem chat_error_keeps_state (cb : option chatbot) (data : pyval)
    (fresh t_user t_bot t_resp : str) (st st' : app_state)
    (code : nat) (err : str) :
  chat cb data fresh t_user t_bot t_resp st = (JsonError code err, st') →
  st' = st.
Proof.
  intros H.
  destruct (chat_outcome cb data fresh t_user t_bot t_resp st)
    as [(code' & err' & Hc)|(c & m & _ & _ & _ & _ & Hc)];
    rewrite Hc in H; [by injection H|discriminate].
Qed.

Lemma chat_error_keeps_state_witness :
  (chat (Some sample_chatbot) (PDict [(lit "message", PInt 7)])
     (lit "fresh-uuid") (lit "10:05:00") (lit "10:05:02") (lit "10:05:03")
     sample_state).2 = sample_state.
Proof.
  exact (chat_error_keeps_state (Some sample_chatbot)
           (PDict [(lit "message", PInt 7)])
           (lit "fresh-uuid") (lit "10:05:00") (lit "10:05:02") (lit "10:05:03")
           sample_state _ 500%nat _ eq_refl).
Defined.

(** Which request [chat] rejects and how: 503 without an engine, whatever
    the body; 400 for a message that is missing, empty or all whitespace;
    400 for one longer than 1000 characters once trimmed; 500 for a body
    that is no JSON object or a message that is no string.  A message of
    exactly 1000 characters after trimming is answered. *)
Theorem chat_validation (c : chatbot) (data : pyval)
    (kvs : list (str * pyval)) (s fresh t_user t_bot t_resp : str)
    (st : app_state) :
  (chat None data fresh t_user t_bot t_resp st).1
  = JsonError 503
      (lit "Chatbot service is currently unavailable. Please try again later.")
  ∧ (dict_get kvs (lit "message") = None →
     (chat (Some c) (PDict kvs) fresh t_user t_bot t_resp st).1
     = JsonError 400 (lit "Message cannot be empty"))
  ∧ (dict_get kvs (lit "message") = Some (PStr s) →
     (forallb isspace s = true →
      (chat (Some c) (PDict kvs) fresh t_user t_bot t_resp st).1
      = JsonError 400 (lit "Message cannot be empty"))
     ∧ ((1000 < length (strip s))%nat →
        (chat (Some c) (PDict kvs) fresh t_user t_bot t_resp st).1
        = JsonError 400
            (lit "Message is too long. Please keep it under 1000 characters."))
     ∧ (strip s ≠ [] → (length (strip s) ≤ 1000)%nat →
        (chat (Some c) (PDict kvs) fresh t_user t_bot t_resp st).1
        = JsonChat (get_response (cb_agent c) (strip s)) t_resp))
  ∧ ((∀ l, data ≠ PDict l) →
     (chat (Some c) data fresh t_user t_bot t_resp st).1 = err_500_chat)
  ∧ ((∀ m, dict_get kvs (lit "message") = Some m → ∀ t, m ≠ PStr t) →
     is_Some (dict_get kvs (lit "message")) →
     (chat (Some c) (PDict kvs) fresh t_user t_bot t_resp st).1 = err_500_chat).
Proof.
  split; [done|]. split; [|split; [|split]].
  - intros Hk. unfold chat, body_field. by rewrite Hk.
  - intros Hk. split; [|split].
    + intros Hb%strip_nil. unfold chat, body_field. rewrite Hk. simpl.
      by rewrite Hb.
    + intros Hlen. unfold chat, body_field. rewrite Hk. simpl.
      destruct (strip s) as [|a r] eqn:E; [simpl in Hlen; lia|]. simpl.
      apply Nat.ltb_lt in Hlen. simpl in Hlen. by rewrite Hlen.
    + intros Hne Hlen.
      destruct (chat_outcome (Some c) (PDict kvs) fresh t_user t_bot t_resp st)
        as [(code & err & Hc)|(c' & m & [= <-] & Hb & _ & _ & Hc)].
      * exfalso. revert Hc. unfold chat, body_field. rewrite Hk. simpl.
        rewrite (truthy_nonempty _ Hne). simpl.
        apply Nat.ltb_ge in Hlen. rewrite Hlen. unfold append.
        rewrite ensure_lookup, lookup_insert_eq. discriminate.
      * rewrite Hc. simpl. unfold body_field in Hb. rewrite Hk in Hb.
        simpl in Hb. by injection Hb as <-.
  - intros Hnd. unfold chat, body_field.
    destruct data; try done. by destruct (Hnd kvs0).
  - intros Hns [m Hm]. unfold chat, body_field. rewrite Hm. simpl.
    destruct m; try done. by destruct (Hns _ Hm s0).
Qed.

Lemma chat_validation_witness :
  (chat (Some sample_chatbot) (body_of_length 1001) (lit "fresh-uuid")
     (lit "10:05:00") (lit "10:05:02") (lit "10:05:03") sample_state).1
  = JsonError 400
      (lit "Message is too long. Please keep it under 1000 characters.")
  ∧ (chat (Some sample_chatbot) (body_of_length 1000) (lit "fresh-uuid")
       (lit "10:05:00") (lit "10:05:02") (lit "10:05:03") sample_state).1
    = JsonChat (get_response (cb_agent sample_chatbot)
                  (strip ([32] ++ replicate 1000 97 ++ [32; 10])))
        (lit "10:05:03")
  ∧ (chat (Some sample_chatbot) (PList []) (lit "fresh-uuid")
       (lit "10:05:00") (lit "10:05:02") (lit "10:05:03") sample_state).1
    = err_500_chat.
Proof.
  split; [|split].
  - refine (proj1 (proj2 (proj1 (proj2 (proj2 (chat_validation sample_chatbot
              PNone [(lit "message", PStr ([32] ++ replicate 1001 97 ++ [32; 10]))]
              ([32] ++ replicate 1001 97 ++ [32; 10]) (lit "fresh-uuid")
              (lit "10:05:00") (lit "10:05:02") (lit "10:05:03") sample_state)))
            eq_refl)) _).
    vm_compute. lia.
  - refine (proj2 (proj2 (proj1 (proj2 (proj2 (chat_validation sample_chatbot
              PNone [(lit "message", PStr ([32] ++ replicate 1000 97 ++ [32; 10]))]
              ([32] ++ replicate 1000 97 ++ [32; 10]) (lit "fresh-uuid")
              (lit "10:05:00") (lit "10:05:02") (lit "10:05:03") sample_state)))
            eq_refl)) _ _).
    + vm_compute. discriminate.
    + vm_compute. lia.
  - refine (proj1 (proj2 (proj2 (proj2 (chat_validation sample_chatbot
              (PList []) [] [] (lit "fresh-uuid")
              (lit "10:05:00") (lit "10:05:02") (lit "10:05:03") sample_state))))
            _).
    discriminate.
Defined.

Lemma get_default (sid : str) (c : conversations) :
  sid ≠ [] → get sid c = default [] (c !! sid).
Proof.
  intros Hne. destruct (c !! sid) as [h|] eqn:E.
  - by rewrite (get_lookup sid c h Hne E).
  - by rewrite get_unknown.
Qed.

(** A valid [chat] request is answered with the engine's response and
    extends the history of its session, and of no other, by exactly two
    turns: the trimmed user message, then the response; the session keeps
    its id (a client without one gets [fresh]), and [get_history] shows the
    old history followed by the two turns. *)
Theorem chat_extends_history (c : chatbot) (data : pyval)
    (m fresh t_user t_bot t_resp sid other : str) (st : app_state) :
  body_field data "message" = Ok m → m ≠ [] → (length m ≤ 1000)%nat →
  ∃ st',
    chat (Some c) data fresh t_user t_bot t_resp st
    = (JsonChat (get_response (cb_agent c) m) t_resp, st')
    ∧ session_id st' = Some (chat_sid fresh st)
    ∧ convs st' !! chat_sid fresh st
      = Some (default [] (convs st !! chat_sid fresh st)
              ++ [user_turn m t_user; assistant_turn c m t_bot])
    ∧ (other ≠ chat_sid fresh st → convs st' !! other = convs st !! other)
    ∧ (session_id st = Some sid → sid ≠ [] →
       get_history st'
       = JsonHistory (get sid (convs st)
                      ++ [user_turn m t_user; assistant_turn c m t_bot])).
Proof.
  intros Hb Hne Hlen.
  destruct (chat_outcome (Some c) data fresh t_user t_bot t_resp st)
    as [(code & err & Hc)|(c' & m' & [= <-] & Hb' & _ & _ & Hc)].
  - exfalso. revert Hc. unfold chat. rewrite Hb.
    rewrite (truthy_nonempty _ Hne). simpl.
    apply Nat.ltb_ge in Hlen. rewrite Hlen. unfold append.
    rewrite ensure_lookup, lookup_insert_eq. discriminate.
  - rewrite Hb in Hb'. injection Hb' as <-. eexists. split; [exact Hc|].
    simpl. split; [done|]. split; [apply lookup_insert_eq|].
    split; [intros Ho; by apply lookup_insert_ne|].
    intros Hs Hsid. unfold get_history, chat_sid. simpl. rewrite Hs. simpl.
    f_equal. rewrite (get_default sid _ Hsid), (get_default sid _ Hsid).
    by rewrite lookup_insert_eq.
Qed.

Lemma chat_extends_history_witness :
  ∃ st',
    chat (Some sample_chatbot) sample_body (lit "fresh-uuid")
      (lit "10:05:00") (lit "10:05:02") (lit "10:05:03") sample_state
    = (JsonChat (lit "final") (lit "10:05:03"), st')
    ∧ get_history st'
      = JsonHistory
          (get sample_sid (convs sample_state)
           ++ [user_turn (lit "what is a fever?") (lit "10:05:00");
               assistant_turn sample_chatbot (lit "what is a fever?")
                 (lit "10:05:02")]).
Proof.
  assert (lit "what is a fever?" ≠ []) as Hne by discriminate.
  assert (sample_sid ≠ []) as Hsid by discriminate.
  assert (length (lit "what is a fever?") ≤ 1000)%nat as Hlen
    by (vm_compute; lia).
  destruct (chat_extends_history sample_chatbot sample_body
              (lit "what is a fever?") (lit "fresh-uuid")
              (lit "10:05:00") (lit "10:05:02") (lit "10:05:03")
              sample_sid [] sample_state eq_refl Hne Hlen)
    as (st' & Hc & _ & _ & _ & Hh).
  exists st'. split; [exact Hc|exact (Hh eq_refl Hsid)].
Defined.

Lemma alternating_app (h : list turn) (u a : turn) :
  alternating h = true →
  alternating (h ++ [u; a])
  = bool_decide (turn_role u = lit "user")
    && bool_decide (turn_role a = lit "assistant").
Proof.
  revert h. fix IH 1. intros [|x [|y h]]; simpl.
  - intros _. by rewrite andb_true_r.
  - done.
  - intros [Hxy Hh]%andb_true_iff. rewrite Hxy. simpl. by apply IH.
Qed.

Lemma all_alternating_insert (sid : str) (h : list turn) (c : conversations) :
  all_alternating c → alternating h = true → all_alternating (<[sid := h]> c).
Proof.
  intros Hc Hh sid' h'. destruct (decide (sid = sid')) as [<-|Hne].
  - rewrite lookup_insert_eq. by intros [= <-].
  - rewrite lookup_insert_ne by done. apply Hc.
Qed.

(** Every stored history is a sequence of user turns each followed by its
    assistant turn, and stays so under [index], [chat] (whatever the
    request) and [clear_history]. *)
Theorem handlers_keep_alternation (cb : option chatbot) (data : pyval)
    (fresh t_user t_bot t_resp : str) (st : app_state) :
  all_alternating (convs st) →
  all_alternating (convs (index fresh st))
  ∧ all_alternating (convs (chat cb data fresh t_user t_bot t_resp st).2)
  ∧ all_alternating (convs (clear_history st).2).
Proof.
  intros Hst. split; [|split].
  - unfold index. destruct (session_id st); [done|]. simpl.
    by apply all_alternating_insert.
  - destruct (chat_outcome cb data fresh t_user t_bot t_resp st)
      as [(code & err & Hc)|(c & m & _ & _ & _ & _ & Hc)]; rewrite Hc; [done|].
    simpl. apply all_alternating_insert; [done|].
    rewrite alternating_app; [by rewrite !bool_decide_true|].
    destruct (convs st !! chat_sid fresh st) as [h|] eqn:E; [|done].
    by apply (Hst _ _ E).
  - unfold clear_history. simpl. destruct (session_id st) as [sid|]; [|done].
    simpl. unfold clear. destruct (_ && _); [|done].
    by apply all_alternating_insert.
Qed.

Lemma handlers_keep_alternation_witness :
  all_alternating
    (convs (chat (Some sample_chatbot) sample_body (lit "fresh-uuid")
              (lit "10:05:00") (lit "10:05:02") (lit "10:05:03")
              sample_state).2).
Proof.
  assert (all_alternating (convs sample_state)) as Hst.
  { intros sid h. simpl. destruct (decide (sample_sid = sid)) as [<-|Hne].
    - rewrite lookup_singleton_eq. by intros [= <-].
    - by rewrite lookup_singleton_ne. }
  exact (proj1 (proj2 (handlers_keep_alternation (Some sample_chatbot)
                         sample_body (lit "fresh-uuid") (lit "10:05:00")
                         (lit "10:05:02") (lit "10:05:03") sample_state Hst))).
Defined.

Lemma get_clear (sid : str) (c : conversations) : get sid (clear sid c) = [].
Proof.
  unfold clear. destruct (truthy sid) eqn:Ht; simpl.
  - assert (sid ≠ []) as Hne by (by destruct sid).
    case_bool_decide as Hs.
    + apply get_lookup; [done|apply lookup_insert_eq].
    + apply get_unknown. by apply eq_None_not_Some.
  - unfold get. by rewrite Ht.
Qed.

Lemma clear_clear (sid : str) (c : conversations) :
  clear sid (clear sid c) = clear sid c.
Proof.
  destruct (decide (sid ≠ [] ∧ is_Some (c !! sid))) as [[Hne Hs]|Hn].
  - rewrite (clear_known sid c Hne Hs).
    rewrite clear_known; [apply insert_insert_eq|done|].
    rewrite lookup_insert_eq. by eexists.
  - assert (clear sid c = c) as Hc.
    { unfold clear. destruct sid; [done|]. simpl.
      rewrite bool_decide_false; [done|]. intros Hs. by apply Hn. }
    by rewrite !Hc.
Qed.

(** After [clear_history] the history read back is empty, whatever the
    session was (none, unknown to the store, or known); clearing twice is
    clearing once, and the answer is always the success status. *)
Theorem clear_history_then_empty (st : app_state) :
  get_history (clear_history st).2 = JsonHistory []
  ∧ (clear_history (clear_history st).2).2 = (clear_history st).2
  ∧ (clear_history st).1
    = JsonStatus (lit "success") (lit "Conversation history cleared")
  ∧ session_id (clear_history st).2 = session_id st.
Proof.
  unfold clear_history, get_history. simpl.
  destruct st as [c [sid|]]; simpl; [|done].
  rewrite get_clear, clear_clear. done.
Qed.

(** No handler touches the history of a session other than the one the
    request runs under: [chat] whatever the request, [clear_history], and
    [index], which only writes under the id it mints. *)
Theorem handlers_isolate_sessions (cb : option chatbot) (data : pyval)
    (fresh t_user t_bot t_resp other : str) (st : app_state) :
  (other ≠ chat_sid fresh st →
   convs (chat cb data fresh t_user t_bot t_resp st).2 !! other
   = convs st !! other)
  ∧ (session_id st ≠ Some other →
     convs (clear_history st).2 !! other = convs st !! other)
  ∧ (other ≠ fresh → convs (index fresh st) !! other = convs st !! other)
  ∧ (is_Some (session_id st) → index fresh st = st).
Proof.
  split; [|split; [|split]].
  - intros Ho.
    destruct (chat_outcome cb data fresh t_user t_bot t_resp st)
      as [(code & err & Hc)|(c & m & _ & _ & _ & _ & Hc)]; rewrite Hc; [done|].
    simpl. by apply lookup_insert_ne.
  - intros Hs. unfold clear_history. simpl.
    destruct (session_id st) as [sid|]; [|done]. simpl.
    unfold clear. destruct (_ && _); [|done].
    apply lookup_insert_ne. congruence.
  - intros Ho. unfold index. destruct (session_id st); [done|]. simpl.
    by apply lookup_insert_ne.
  - intros [sid Hs]. unfold index. by rewrite Hs.
Qed.

Lemma handlers_isolate_sessions_witness :
  convs (chat (Some sample_chatbot) sample_body sample_sid
           (lit "10:05:00") (lit "10:05:02") (lit "10:05:03")
           {| convs := convs sample_state; session_id := None |}).2
    !! lit "another-session"
  = convs sample_state !! lit "another-session"
  ∧ convs (index (lit "fresh-uuid") sample_state) = convs sample_state.
Proof.
  assert (lit "another-session" ≠ sample_sid) as Hne by discriminate.
  split.
  - exact (proj1 (handlers_isolate_sessions (Some sample_chatbot) sample_body
                    sample_sid (lit "10:05:00") (lit "10:05:02")
                    (lit "10:05:03") (lit "another-session")
                    {| convs := convs sample_state; session_id := None |}) Hne).
  - assert (is_Some (session_id sample_state)) as Hs by (by eexists).
    exact (f_equal convs
             (proj2 (proj2 (proj2 (handlers_isolate_sessions
                                     (Some sample_chatbot) sample_body
                                     (lit "fresh-uuid") [] [] [] []
                                     sample_state))) Hs)).
Defined.

(** [/api/sources]: 503 without an engine; 400 for a query that is missing,
    empty or all whitespace; 500 for a body that is no JSON object;
    otherwise the entries of [get_relevant_sources] for the trimmed query
    and three passages, one per passage found, and an empty list (not an
    error status) when the search itself fails. *)
Theorem get_sources_outcomes (c : chatbot) (data : pyval)
    (kvs : list (str * pyval)) (s : str) (docs : list document) (e : exn) :
  get_sources None data
  = JsonError 503 (lit "Chatbot service is currently unavailable")
  ∧ (dict_get kvs (lit "query") = None →
     get_sources (Some c) (PDict kvs) = JsonError 400 (lit "Query cannot be empty"))
  ∧ (dict_get kvs (lit "query") = Some (PStr s) →
     (forallb isspace s = true →
      get_sources (Some c) (PDict kvs)
      = JsonError 400 (lit "Query cannot be empty"))
     ∧ (strip s ≠ [] →
        get_sources (Some c) (PDict kvs)
        = JsonSources (get_relevant_sources (cb_vectorstore c) (strip s) 3%Z)
        ∧ (cb_vectorstore c (strip s) 3%Z = Raise e →
           get_sources (Some c) (PDict kvs) = JsonSources [])
        ∧ (cb_vectorstore c (strip s) 3%Z = Ok docs →
           ∃ l, get_sources (Some c) (PDict kvs) = JsonSources l
                ∧ length l = length docs)))
  ∧ ((∀ l, data ≠ PDict l) →
     get_sources (Some c) data = JsonError 500 (lit "Failed to retrieve sources")).
Proof.
  split; [done|]. split; [|split].
  - intros Hk. unfold get_sources, body_field. by rewrite Hk.
  - intros Hk. split.
    + intros Hb%strip_nil. unfold get_sources, body_field. rewrite Hk. simpl.
      by rewrite Hb.
    + intros Hne.
      assert (get_sources (Some c) (PDict kvs)
              = JsonSources (get_relevant_sources (cb_vectorstore c) (strip s) 3%Z))
        as Hs.
      { unfold get_sources, body_field. rewrite Hk. simpl.
        by rewrite (truthy_nonempty _ Hne). }
      split; [exact Hs|]. rewrite Hs. unfold get_relevant_sources. split.
      * by intros ->.
      * intros ->. eexists. split; [done|apply length_fmap].
  - intros Hnd. unfold get_sources, body_field.
    destruct data; try done. by destruct (Hnd kvs0).
Qed.

Lemma get_sources_outcomes_witness :
  get_sources (Some sample_chatbot) (PDict [(lit "query", PStr (lit " "))])
  = JsonError 400 (lit "Query cannot be empty")
  ∧ get_sources (Some {| cb_agent := sample_agent None;
                         cb_vectorstore := λ _ _, Raise index_error |})
      (PDict [(lit "query", PStr (lit " diabetes "))])
    = JsonSources []
  ∧ get_sources (Some sample_chatbot) (PStr (lit "diabetes"))
    = JsonError 500 (lit "Failed to retrieve sources").
Proof.
  assert (strip (lit " diabetes ") ≠ []) as Hne by discriminate.
  split; [|split].
  - exact (proj1 (proj1 (proj2 (proj2 (get_sources_outcomes sample_chatbot PNone
                     [(lit "query", PStr (lit " "))] (lit " ") [] index_error)))
                   eq_refl) eq_refl).
  - exact (proj1 (proj2 (proj2 (proj1 (proj2 (proj2 (get_sources_outcomes
             {| cb_agent := sample_agent None;
                cb_vectorstore := λ _ _, Raise index_error |} PNone
             [(lit "query", PStr (lit " diabetes "))] (lit " diabetes ") []
             index_error))) eq_refl) Hne)) eq_refl).
  - assert (∀ l, PStr (lit "diabetes") ≠ PDict l) as Hnd by discriminate.
    exact (proj2 (proj2 (proj2 (get_sources_outcomes sample_chatbot
                                  (PStr (lit "diabetes")) [] [] [] index_error)))
             Hnd).
Defined.

(** ** Construction of the engine: properties *)

Section ConstructionFacts.
Context {embeddings llm : Type}.
Variable py_format : pyval → str.
Variable system_prompt : str.
Variable svc : services embeddings llm.
Variable env : environ.

(** The engine cannot be built without its credentials: with
    [HUGGING_FACE_KEY] unset or empty the constructor raises a [ValueError]
    naming it, whatever the services would answer; with [GOOGLE_API_KEY]
    unset or empty it raises the [ValueError] naming that key, once
    embeddings and vector store were built. *)
Theorem construction_requires_keys (key : str) (emb : embeddings)
    (vs : vectorstore) :
  (getenv env "HUGGING_FACE_KEY" = None
   ∨ getenv env "HUGGING_FACE_KEY" = Some [] →
   MedicalChatbot py_format system_prompt svc env
   = Raise (ValueError (lit "HUGGING_FACE_KEY not found in environment variables")))
  ∧ (getenv env "HUGGING_FACE_KEY" = Some key → key ≠ [] →
     new_embeddings svc (lit "sentence-transformers/all-MiniLM-L6-v2") key = Ok emb →
     new_vectorstore svc (lit "medical-chatbot") emb = Ok vs →
     getenv env "GOOGLE_API_KEY" = None ∨ getenv env "GOOGLE_API_KEY" = Some [] →
     MedicalChatbot py_format system_prompt svc env
     = Raise (ValueError (lit "GOOGLE_API_KEY not found in environment variables"))).
Proof.
  unfold MedicalChatbot, _initialize_embeddings, _initialize_vectorstore,
    _initialize_llm.
  split.
  - by intros [->| ->].
  - intros -> Hk He Hv Hg. rewrite (truthy_nonempty _ Hk), He. simpl.
    rewrite Hv. simpl. by destruct Hg as [->| ->].
Qed.

(** The four initializers run in order and the first failure is the one
    raised: a failing embeddings client, then a failing vector store (even
    with no Google key), then a failing model client, then a failing
    [create_agent]; when all succeed the engine holds the agent, and the
    vector store the agent's tool searches. *)
Theorem construction_first_failure (key gkey : str) (emb : embeddings)
    (vs : vectorstore) (model : llm) (ag : agent) (e : exn) :
  getenv env "HUGGING_FACE_KEY" = Some key → key ≠ [] →
  (new_embeddings svc (lit "sentence-transformers/all-MiniLM-L6-v2") key = Raise e →
   MedicalChatbot py_format system_prompt svc env = Raise e)
  ∧ (new_embeddings svc (lit "sentence-transformers/all-MiniLM-L6-v2") key = Ok emb →
     (new_vectorstore svc (lit "medical-chatbot") emb = Raise e →
      MedicalChatbot py_format system_prompt svc env = Raise e)
     ∧ (new_vectorstore svc (lit "medical-chatbot") emb = Ok vs →
        getenv env "GOOGLE_API_KEY" = Some gkey → gkey ≠ [] →
        (new_llm svc (lit "models/gemini-2.5-flash") gkey = Raise e →
         MedicalChatbot py_format system_prompt svc env = Raise e)
        ∧ (new_llm svc (lit "models/gemini-2.5-flash") gkey = Ok model →
           (create_agent svc model
              (retrieve_medical_context py_format (Some vs)) system_prompt
            = Raise e →
            MedicalChatbot py_format system_prompt svc env = Raise e)
           ∧ (create_agent svc model
                (retrieve_medical_context py_format (Some vs)) system_prompt
              = Ok ag →
              MedicalChatbot py_format system_prompt svc env
              = Ok {| cb_agent := ag; cb_vectorstore := vs |})))).
Proof.
  unfold MedicalChatbot, _initialize_embeddings, _initialize_vectorstore,
    _initialize_llm, _initialize_agent.
  intros -> Hk. rewrite (truthy_nonempty _ Hk). split; [by intros ->|].
  intros ->. simpl. split; [by intros ->|].
  intros -> -> Hg. simpl. rewrite (truthy_nonempty _ Hg).
  split; [by intros ->|]. intros ->. simpl. split; by intros ->.
Qed.

(** [get_chatbot] builds the engine at most once: after a successful first
    call every later call returns that same engine without looking at the
    environment or the services again; a failed call leaves no instance
    behind, so the next call tries to build one anew. *)
Theorem get_chatbot_singleton (svc' : services embeddings llm) (env' : environ) :
  match get_chatbot py_format system_prompt svc env None with
  | (Ok cb, instance) =>
      MedicalChatbot py_format system_prompt svc env = Ok cb
      ∧ instance = Some cb
      ∧ get_chatbot py_format system_prompt svc' env' instance = (Ok cb, Some cb)
  | (Raise e, instance) =>
      MedicalChatbot py_format system_prompt svc env = Raise e
      ∧ instance = None
      ∧ get_chatbot py_format system_prompt svc' env' instance
        = get_chatbot py_format system_prompt svc' env' None
  end.
Proof.
  unfold get_chatbot at 1.
  by destruct (MedicalChatbot py_format system_prompt svc env).
Qed.

(** When the engine could not be built at import, the application keeps
    running without it: [/api/chat] and [/api/sources] answer 503 to every
    request and no state changes; when it could, the handlers use it. *)
Theorem unavailable_engine_answers_503 (e : exn) (cb : chatbot) (data : pyval)
    (fresh t_user t_bot t_resp : str) (st : app_state) :
  (MedicalChatbot py_format system_prompt svc env = Raise e →
   app_chatbot py_format system_prompt svc env = None
   ∧ chat (app_chatbot py_format system_prompt svc env) data
       fresh t_user t_bot t_resp st
     = (JsonError 503
          (lit "Chatbot service is currently unavailable. Please try again later."),
        st)
   ∧ get_sources (app_chatbot py_format system_prompt svc env) data
     = JsonError 503 (lit "Chatbot service is currently unavailable"))
  ∧ (MedicalChatbot py_format system_prompt svc env = Ok cb →
     app_chatbot py_format system_prompt svc env = Some cb).
Proof.
  unfold app_chatbot, get_chatbot. split; by intros ->.
Qed.
End ConstructionFacts.

Lemma construction_requires_keys_witness :
  MedicalChatbot (λ _, []) [] failing_services ∅
  = Raise (ValueError (lit "HUGGING_FACE_KEY not found in environment variables"))
  ∧ MedicalChatbot (λ _, []) [] sample_services env_without_google
    = Raise (ValueError (lit "GOOGLE_API_KEY not found in environment variables")).
Proof.
  split.
  - exact (proj1 (construction_requires_keys (λ _, []) [] failing_services ∅
                    [] tt (λ _ _, Ok []))
             (or_introl eq_refl)).
  - assert (lit "hf_123" ≠ []) as Hk by discriminate.
    exact (proj2 (construction_requires_keys (λ _, []) [] sample_services
                    env_without_google (lit "hf_123") tt
                    (λ _ _, Ok [sourced_doc]))
             eq_refl Hk eq_refl eq_refl (or_intror eq_refl)).
Defined.

Lemma construction_first_failure_witness :
  MedicalChatbot (λ _, []) [] failing_services sample_env = Raise index_error
  ∧ MedicalChatbot (λ _, []) [] sample_services sample_env
    = Ok {| cb_agent := sample_agent None;
            cb_vectorstore := λ _ _, Ok [sourced_doc] |}.
Proof.
  assert (lit "hf_123" ≠ []) as Hk by discriminate.
  assert (lit "g_456" ≠ []) as Hg by discriminate.
  split.
  - exact (proj1 (construction_first_failure (λ _, []) [] failing_services
                    sample_env (lit "hf_123") (lit "g_456") tt
                    (λ _ _, Ok []) tt (sample_agent None) index_error
                    eq_refl Hk) eq_refl).
  - exact (proj2 (proj2 (proj2 (proj2
             (construction_first_failure (λ _, []) [] sample_services
                sample_env (lit "hf_123") (lit "g_456") tt
                (λ _ _, Ok [sourced_doc]) tt (sample_agent None) index_error
                eq_refl Hk) eq_refl) eq_refl eq_refl Hg) eq_refl) eq_refl).
Defined.

Lemma unavailable_engine_answers_503_witness :
  chat (app_chatbot (λ _, []) [] sample_services env_without_google)
    sample_body (lit "fresh-uuid") (lit "10:05:00") (lit "10:05:02")
    (lit "10:05:03") sample_state
  = (JsonError 503
       (lit "Chatbot service is currently unavailable. Please try again later."),
     sample_state).
Proof.
  exact (proj1 (proj2 (proj1 (unavailable_engine_answers_503 (λ _, []) []
                                sample_services env_without_google
                                (ValueError (lit "GOOGLE_API_KEY not found in environment variables"))
                                sample_chatbot sample_body (lit "fresh-uuid")
                                (lit "10:05:00") (lit "10:05:02")
                                (lit "10:05:03") sample_state) eq_refl))).
Defined.
